(** * Hybrid spot/futures trading bot: risk manager, portfolio strategy
      and technical analyser

    A shallow embedding of the decision logic of
    [modules/risk_manager.py], [modules/hybrid_portfolio_strategy.py] and
    [modules/technical_analysis.py].

    Numbers.  Python floats are embedded as exact rationals ([Q]); where a
    function inspects a value for NaN/None (the signal generator) the value
    is a small tagged type with an explicit NaN.  Comparisons and [min]/[max]
    follow CPython's definitions.  A raised exception is [None] in the
    [exn] monad; every [try ... except] of the source is a [catch].

    Dicts whose iteration order is observable (positions, market data) are
    association lists in insertion order. *)

From Stdlib Require Import QArith Qabs Qround Qminmax ZArith List String Bool.
From Stdlib Require Import Lia Lqa.
From Stdlib Require Import Sorting.Sorted.
Import ListNotations.

Local Open Scope Q_scope.
Local Open Scope string_scope.

(* ================================================================== *)
(** * Python primitives *)
(* ================================================================== *)

Module Py.

(** [a < b] and [a <= b] on floats. *)
Definition leb (a b : Q) : bool := Qle_bool a b.
Definition ltb (a b : Q) : bool := negb (Qle_bool b a).
Definition eqb (a b : Q) : bool := Qeq_bool a b.

(** Built-in [min(a, b)]: the first argument unless the second is
      strictly smaller; [max(a, b)] dually. *)
Definition min (a b : Q) : Q := if ltb b a then b else a.
Definition max (a b : Q) : Q := if ltb a b then b else a.

Definition abs (a : Q) : Q := Qabs a.

(** Exceptions: [None] is a raised exception. *)
Definition exn (A : Type) : Type := option A.
Definition ret {A} (a : A) : exn A := Some a.
Definition raise {A} : exn A := None.
Definition bind {A B} (m : exn A) (k : A -> exn B) : exn B :=
    match m with Some a => k a | None => None end.
(** [try: m  except Exception: return d] *)
Definition catch {A} (m : exn A) (d : A) : A :=
    match m with Some a => a | None => d end.

(** [a / b], raising ZeroDivisionError. *)
Definition div (a b : Q) : exn Q :=
    if eqb b 0 then raise else ret (a / b).

(** [d[k]] on an optional entry, raising KeyError. *)
Definition item {A} (o : option A) : exn A := o.

(** [d.get(k, default)] on an association list. *)
Fixpoint get {A} (d : list (string * A)) (k : string) : option A :=
    match d with
    | [] => None
    | (k', v) :: d' => if String.eqb k' k then Some v else get d' k
    end.
Definition get_or {A} (d : list (string * A)) (k : string) (default : A) : A :=
    match get d k with Some v => v | None => default end.

(** [d[k] = v] on an insertion-ordered dict: an existing key keeps its
    place. *)
Fixpoint set {A} (d : list (string * A)) (k : string) (v : A)
  : list (string * A) :=
  match d with
  | [] => [(k, v)]
  | (k', v') :: d' =>
      if String.eqb k' k then (k', v) :: d' else (k', v') :: set d' k v
  end.

(** [k in xs] for a list of strings. *)
Definition mem (k : string) (xs : list string) : bool :=
    existsb (String.eqb k) xs.

(** [round(x, ndigits)]: to the nearest multiple of 10^-ndigits, ties to
      the even one. *)
Definition round_half_even (q : Q) : Z :=
    let f := Qfloor q in
    match Qcompare (q - inject_Z f)%Q (1 # 2)%Q with
    | Lt => f
    | Gt => (f + 1)%Z
    | Eq => if Z.even f then f else (f + 1)%Z
    end.
Definition pow10 (n : nat) : Q := inject_Z (10 ^ Z.of_nat n).
Definition round (x : Q) (ndigits : nat) : Q :=
    inject_Z (round_half_even (x * pow10 ndigits)) / pow10 ndigits.

(** [sorted(xs, key=key, reverse=True)] and [xs.sort(key=key)]: stable
      sorts; with [reverse=True] equal keys keep their original order. *)
Section Sort.
Context {A : Type} (strictly_before : A -> A -> bool).
(** [insert x l] puts [x], which preceded all of [l] in the input,
        behind exactly the elements that must strictly precede it. *)
Fixpoint insert (x : A) (l : list A) : list A :=
      match l with
      | [] => [x]
      | y :: l' =>
          if strictly_before y x then y :: insert x l' else x :: y :: l'
      end.
Definition sort_with (l : list A) : list A := fold_right insert [] l.
End Sort.
Definition sorted_desc {A} (key : A -> Q) : list A -> list A :=
    sort_with (fun y x => ltb (key x) (key y)).
Definition sort_asc {A} (key : A -> Z) : list A -> list A :=
    sort_with (fun y x => Z.ltb (key y) (key x)).

End Py.


Notation "x <- m ;; k" := (Py.bind m (fun x => k))
  (at level 61, m at next level, right associativity).

(* ================================================================== *)
(** * modules/risk_manager.py *)
(* ================================================================== *)

Module RiskManager.

(** One entry of [self.positions], as [add_position] builds it.
    [current_price] is read both as [position['current_price']] and as
    [position.get('current_price', position['price'])], so it may be absent. *)
Record Position : Type := mkPosition {
  symbol : string;
  side : string;
  size : Q;
  price : Q;
  exchange_type : string;
  stop_loss_price : Q;
  take_profit_price : Q;
  entry_time : Z;
  unrealized_pnl : Q;
  current_price : option Q
}.

Definition set_size (p : Position) (s : Q) : Position :=
  mkPosition (symbol p) (side p) s (price p) (exchange_type p)
    (stop_loss_price p) (take_profit_price p) (entry_time p)
    (unrealized_pnl p) (current_price p).

Definition set_stop_loss_price (p : Position) (s : Q) : Position :=
  mkPosition (symbol p) (side p) (size p) (price p) (exchange_type p)
    s (take_profit_price p) (entry_time p)
    (unrealized_pnl p) (current_price p).

Record Alert : Type := mkAlert {
  alert_type : string;
  alert_symbol : string;
  alert_message : string;
  alert_timestamp : Z
}.

(** The [RiskManager] object: configuration read in [__init__] and the
    mutable risk state. *)
Record t : Type := mkRiskManager {
  max_position_size : Q;
  max_daily_loss : Q;
  max_drawdown : Q;
  stop_loss_pct : Q;
  take_profit_pct : Q;
  position_timeout_hours : Q;
  max_leverage : Q;
  risk_per_trade : Q;
  daily_pnl : Q;
  peak_balance : Q;
  current_drawdown : Q;
  positions : list (string * Position);
  risk_alerts : list Alert
}.

Definition set_positions (rm : t) (ps : list (string * Position)) : t :=
  mkRiskManager (max_position_size rm) (max_daily_loss rm) (max_drawdown rm)
    (stop_loss_pct rm) (take_profit_pct rm) (position_timeout_hours rm)
    (max_leverage rm) (risk_per_trade rm) (daily_pnl rm) (peak_balance rm)
    (current_drawdown rm) ps (risk_alerts rm).

Definition set_risk_alerts (rm : t) (al : list Alert) : t :=
  mkRiskManager (max_position_size rm) (max_daily_loss rm) (max_drawdown rm)
    (stop_loss_pct rm) (take_profit_pct rm) (position_timeout_hours rm)
    (max_leverage rm) (risk_per_trade rm) (daily_pnl rm) (peak_balance rm)
    (current_drawdown rm) (positions rm) al.

(** [__init__] with the defaults of [config.get]. *)
Definition init : t :=
  mkRiskManager (2 # 10) (5 # 100) (20 # 100) (5 # 100) (10 # 100) 24 5
    (2 # 100) 0 0 0 [] [].

Definition add_position (rm : t) (symbol side : string) (size price : Q)
    (exchange_type : string) (stop_loss_price take_profit_price : Q)
    (now : Z) : t :=
  set_positions rm
    (Py.set (positions rm) symbol
       (mkPosition symbol side size price exchange_type stop_loss_price
          take_profit_price now 0 (Some price))).

Definition remove_position (rm : t) (symbol : string) : t :=
  set_positions rm
    (filter (fun kv => negb (String.eqb (fst kv) symbol)) (positions rm)).

(** [get_risk_alerts]: copy the queue, clear it, return the copy. *)
Definition get_risk_alerts (rm : t) : list Alert * t :=
  let alerts := risk_alerts rm in
  (alerts, set_risk_alerts rm []).

(** ** Adaptive position sizing *)

Record MarketConditions : Type := mkMarketConditions {
  volatility : option Q;
  regime : option string;
  liquidity : option string
}.

Definition base_win_rates : list (string * Q) :=
  [ ("BTC/USDT", 58 # 100); ("ETH/USDT", 56 # 100); ("BNB/USDT", 54 # 100);
    ("XRP/USDT", 52 # 100); ("SOL/USDT", 55 # 100); ("ADA/USDT", 53 # 100);
    ("AVAX/USDT", 54 # 100); ("LINK/USDT", 56 # 100); ("TRX/USDT", 51 # 100) ].

(** [_calculate_recent_win_rate].  [adjustment] is the value drawn by
    [random.uniform(-0.05, 0.05)] in this call. *)
Definition _calculate_recent_win_rate (symbol : string) (adjustment : Q) : Q :=
  let base_rate := Py.get_or base_win_rates symbol (52 # 100) in
  Py.max (3 # 10) (Py.min (8 # 10) (base_rate + adjustment)).

(** The Kelly formula before clamping, for given win/loss sizes. *)
Definition kelly_formula (win_rate avg_win avg_loss : Q) : Q :=
  (win_rate * avg_win - (1 - win_rate) * avg_loss) / avg_win.

Definition regime_win_loss (regime : string) : Q * Q :=
  if String.eqb regime "trending" then (18 # 100, 9 # 100)
  else if String.eqb regime "volatile" then (12 # 100, 12 # 100)
  else (15 # 100, 8 # 100).

(** [_calculate_dynamic_kelly]; a missing ['regime'] key raises KeyError,
    which the function's handler turns into 0.02. *)
Definition _calculate_dynamic_kelly (symbol : string) (win_rate : Q)
    (market_conditions : MarketConditions) : Q :=
  Py.catch
    (r <- Py.item (regime market_conditions) ;;
     let '(avg_win, avg_loss) := regime_win_loss r in
     if Py.leb avg_win 0 then Py.ret 0
     else
       let kelly_fraction := kelly_formula win_rate avg_win avg_loss in
       Py.ret (Py.max 0 (Py.min kelly_fraction (25 # 100))))
    (2 # 100).

Definition _calculate_volatility_adjustment (volatility : Q) : Q :=
  if Py.ltb (5 # 100) volatility then 5 # 10
  else if Py.ltb (3 # 100) volatility then 7 # 10
  else if Py.ltb (1 # 100) volatility then 1
  else 12 # 10.

Definition _get_regime_multiplier (regime : string) : Q :=
  Py.get_or
    [ ("trending", 13 # 10); ("ranging", 8 # 10); ("volatile", 6 # 10);
      ("neutral", 1) ] regime 1.

Definition _calculate_liquidity_adjustment (liquidity : string) : Q :=
  Py.get_or [ ("high", 11 # 10); ("normal", 1); ("low", 7 # 10) ] liquidity 1.

Definition major_coins : list string := [ "BTC/USDT"; "ETH/USDT" ].

Definition _estimate_correlation (symbol1 symbol2 : string) : Q :=
  if Py.mem symbol1 major_coins && Py.mem symbol2 major_coins then 8 # 10
  else if Py.mem symbol1 major_coins || Py.mem symbol2 major_coins then 6 # 10
  else 4 # 10.

(** The loop of [_calculate_correlation_adjustment] over
    [self.positions.items()]. *)
Fixpoint correlation_risk_loop (symbol : string)
    (ps : list (string * Position)) (correlation_risk : Q) : Py.exn Q :=
  match ps with
  | [] => Py.ret correlation_risk
  | (existing_symbol, position) :: rest =>
      if negb (String.eqb existing_symbol symbol) then
        let correlation := _estimate_correlation symbol existing_symbol in
        cp <- Py.item (current_price position) ;;
        let position_weight := Py.abs (size position * cp) in
        correlation_risk_loop symbol rest
          (correlation_risk + correlation * position_weight)
      else correlation_risk_loop symbol rest correlation_risk
  end.

Definition _calculate_correlation_adjustment (rm : t) (symbol : string) : Q :=
  Py.catch
    (correlation_risk <- correlation_risk_loop symbol (positions rm) 0 ;;
     Py.ret (if Py.ltb (8 # 10) correlation_risk then 5 # 10
             else if Py.ltb (6 # 10) correlation_risk then 7 # 10
             else if Py.ltb (3 # 10) correlation_risk then 9 # 10
             else 1))
    (9 # 10).

Definition _apply_safety_limits (rm : t)
    (calculated_size current_balance current_price : Q) : Q :=
  Py.catch
    (let position_value := calculated_size * current_price in
     let max_position_value := current_balance * max_position_size rm in
     calculated_size1 <-
       (if Py.ltb max_position_value position_value
        then Py.div max_position_value current_price
        else Py.ret calculated_size) ;;
     let max_risk_amount := current_balance * risk_per_trade rm in
     calculated_size2 <-
       (if Py.ltb max_risk_amount position_value
        then Py.div max_risk_amount current_price
        else Py.ret calculated_size1) ;;
     let min_position_value := 10 in
     if Py.ltb position_value min_position_value then Py.ret 0
     else Py.ret calculated_size2)
    0.

Definition _fallback_position_size (current_balance current_price : Q) : Q :=
  Py.catch
    (let conservative_amount := current_balance * (1 # 100) in
     Py.div conservative_amount current_price)
    0.

(** [adaptive_position_sizing].  The positions are only read.  [adjustment]
    is the random draw consumed by [_calculate_recent_win_rate]. *)
Definition adaptive_position_sizing (rm : t) (symbol : string)
    (signal_strength current_balance current_price : Q)
    (market_conditions : MarketConditions) (adjustment : Q) : Q :=
  Py.catch
    (let recent_win_rate := _calculate_recent_win_rate symbol adjustment in
     let dynamic_kelly :=
       _calculate_dynamic_kelly symbol recent_win_rate market_conditions in
     v <- Py.item (volatility market_conditions) ;;
     let volatility_adj := _calculate_volatility_adjustment v in
     r <- Py.item (regime market_conditions) ;;
     let regime_multiplier := _get_regime_multiplier r in
     l <- Py.item (liquidity market_conditions) ;;
     let liquidity_adj := _calculate_liquidity_adjustment l in
     let correlation_adj := _calculate_correlation_adjustment rm symbol in
     let base_size := dynamic_kelly * signal_strength in
     let adjusted_size :=
       base_size * volatility_adj * regime_multiplier
       * liquidity_adj * correlation_adj in
     Py.ret (_apply_safety_limits rm adjusted_size current_balance
               current_price))
    (_fallback_position_size current_balance current_price).

(** [calculate_position_size]: the legacy entry point. *)
Definition calculate_position_size (rm : t) (symbol : string)
    (signal_strength current_balance current_price volatility adjustment : Q)
  : Q :=
  adaptive_position_sizing rm symbol signal_strength current_balance
    current_price
    (mkMarketConditions (Some volatility) (Some "neutral") (Some "normal"))
    adjustment.

(** ** Automatic responses *)

(** Unrealised profit ratio of a position, as both [_monitor_position_risks]
    and [_reduce_risky_positions] compute it. *)
Definition pnl_pct (position : Position) : Py.exn Q :=
  let current_price :=
    match current_price position with
    | Some c => c
    | None => price position
    end in
  let entry_price := price position in
  if String.eqb (side position) "buy"
  then Py.div (current_price - entry_price) entry_price
  else Py.div (entry_price - current_price) entry_price.

(** One iteration of the loop of [_reduce_risky_positions]. *)
Definition reduce_position (reduction_ratio : Q) (position : Position)
  : Py.exn Position :=
  pnl <- pnl_pct position ;;
  if Py.ltb pnl (- (5 # 100)) then
    let original_size := size position in
    let new_size := original_size * (1 - reduction_ratio) in
    Py.ret (set_size position new_size)
  else Py.ret position.

(** The loop mutates the position dicts in place; an exception leaves the
    loop with the earlier positions already reduced. *)
Fixpoint reduce_loop (reduction_ratio : Q) (ps : list (string * Position))
  : list (string * Position) :=
  match ps with
  | [] => []
  | (symbol, position) :: rest =>
      match reduce_position reduction_ratio position with
      | Some position' => (symbol, position') :: reduce_loop reduction_ratio rest
      | None => (symbol, position) :: rest
      end
  end.

Definition _reduce_risky_positions (rm : t) (reduction_ratio : Q) : t :=
  set_positions rm (reduce_loop reduction_ratio (positions rm)).

Definition tighten_position (position : Position) : Position :=
  let current_price :=
    match current_price position with
    | Some c => c
    | None => price position
    end in
  let new_stop_loss :=
    if String.eqb (side position) "buy"
    then current_price * (97 # 100)
    else current_price * (103 # 100) in
  set_stop_loss_price position new_stop_loss.

Definition _tighten_stop_losses (rm : t) : t :=
  set_positions rm
    (map (fun kv => (fst kv, tighten_position (snd kv))) (positions rm)).

(** [_execute_automatic_responses] on a risk assessment of the given level. *)
Definition _execute_automatic_responses (rm : t) (risk_level : string) : t :=
  if String.eqb risk_level "critical" then
    _reduce_risky_positions rm (5 # 10)
  else if String.eqb risk_level "high" then
    _tighten_stop_losses rm
  else rm.

(** A position is losing when its profit ratio is defined and below -5%:
    the test under which [_reduce_risky_positions] shrinks it. *)
Definition losing (position : Position) : bool :=
  match pnl_pct position with
  | Some pnl => Py.ltb pnl (- (5 # 100))
  | None => false
  end.

(** No position divides by a zero entry price in [pnl_pct]. *)
Definition entry_prices_nonzero (ps : list (string * Position)) : Prop :=
  Forall (fun kv => ~ price (snd kv) == 0) ps.

(** The positions with every losing one scaled by [factor]. *)
Definition scale_losing (factor : Q) (ps : list (string * Position))
  : list (string * Position) :=
  map (fun kv =>
         (fst kv,
          if losing (snd kv)
          then set_size (snd kv) (size (snd kv) * factor)
          else snd kv))
    ps.

(** How many positions the loop of [_reduce_risky_positions] handles before
    it stops: those ahead of the first position whose entry price is zero,
    where the division raises and the handler ends the loop. *)
Fixpoint reached (ps : list (string * Position)) : nat :=
  match ps with
  | [] => O
  | (_, position) :: rest =>
      if Py.eqb (price position) 0 then O else S (reached rest)
  end.

End RiskManager.

(* ================================================================== *)
(** * modules/hybrid_portfolio_strategy.py *)
(* ================================================================== *)

Module HybridPortfolioStrategy.

(** A value found in a loosely typed market-data dict: a number, [None],
    or an object that is not a number ([float()] and [<=] raise on it). *)
Inductive pyval : Type :=
| VNum (q : Q)
| VNone
| VOther.

(** [float(v)] *)
Definition to_float (v : pyval) : Py.exn Q :=
  match v with VNum q => Py.ret q | _ => Py.raise end.

(** [d.get(k, default)] followed by [if v is None: v = default]. *)
Definition get_not_none (o : option pyval) (default : Q) : pyval :=
  match o with
  | None => VNum default
  | Some VNone => VNum default
  | Some v => v
  end.

(** [signals] dict of one market: only ['combined_signal'] is read. *)
Record Signals : Type := mkSignals { combined_signal : option pyval }.

(** [indicators] dict of one market: only [rsi.current] is read. *)
Record Indicators : Type := mkIndicators { rsi_current : option pyval }.

(** One entry of [market_data].  [None] for a ticker value: the ticker or
    its ['last'] key is absent; [None] for signals/indicators: absent or an
    empty dict (falsy). *)
Record SymbolData : Type := mkSymbolData {
  spot_ticker_last : option pyval;
  futures_ticker_last : option pyval;
  spot_signals : option Signals;
  futures_signals : option Signals;
  spot_indicators : option Indicators;
  futures_indicators : option Indicators
}.

(** A (non-empty) position dict stored by [update_positions]. *)
Record HeldPosition : Type := mkHeldPosition {
  held_side : option string;
  held_size : option Q
}.

Module Arbitrage.
Record t : Type := mk {
  symbol : string;
  premium : Q;
  spot_price : Q;
  futures_price : Q;
  opportunity_type : string;
  expected_profit : Q;
  confidence : Q
}.
End Arbitrage.

Module Trend.
Record t : Type := mk {
  symbol : string;
  direction : string;
  spot_strength : Q;
  futures_strength : Q;
  confidence : Q
}.
End Trend.

Module Hedge.
Record t : Type := mk {
  symbol : string;
  hedge_type : string;
  spot_position : HeldPosition;
  futures_strength : Q;
  confidence : Q
}.
End Hedge.

Module Momentum.
Record t : Type := mk {
  symbol : string;
  type : string;
  spot_rsi : Q;
  futures_rsi : Q;
  confidence : Q
}.
End Momentum.

(** The [opportunities] dict; a key may be absent from a dict handed to
    [generate_portfolio_signals]. *)
Record Opportunities : Type := mkOpportunities {
  arbitrage : option (list Arbitrage.t);
  trend_following : option (list Trend.t);
  hedging : option (list Hedge.t);
  momentum : option (list Momentum.t)
}.

Definition no_opportunities : Opportunities :=
  mkOpportunities (Some []) (Some []) (Some []) (Some []).

Record Signal : Type := mkSignal {
  strategy : string;
  symbol : string;
  exchange_type : string;
  action : string;
  size : Q;
  confidence : Q;
  expected_return : option Q;
  priority : Z
}.

Record PortfolioState : Type := mkPortfolioState {
  total_balance : option Q;
  spot_balance : option Q;
  futures_balance : option Q;
  spot_free_balance : option Q;
  futures_free_balance : option Q
}.

(** The strategy object.  Times are seconds on the wall clock. *)
Record t : Type := mkStrategy {
  spot_allocation : Q;
  futures_allocation : Q;
  arbitrage_threshold : Q;
  rebalance_threshold : Q;
  rebalance_interval_minutes : Q;
  auto_transfer_enabled : bool;
  max_leverage : Q;
  max_position_size : Q;
  current_positions_spot : list (string * HeldPosition);
  current_positions_futures : list (string * HeldPosition);
  last_rebalance : Q
}.

(** [__init__] with the defaults of [config.get], constructed at time [now]. *)
Definition init (now : Q) : t :=
  mkStrategy (4 # 10) (6 # 10) (5 # 10000) (3 # 100) 15 true 5 (2 # 10)
    [] [] now.

Definition futures_supported_symbols : list string :=
  [ "BTC/USDT"; "ETH/USDT"; "BNB/USDT"; "XRP/USDT"; "SOL/USDT"; "ADA/USDT";
    "AVAX/USDT"; "LINK/USDT"; "TRX/USDT" ].

Definition futures_symbol_mapping : list (string * string) :=
  [ ("BTC/USDT", "BTC/USDT:USDT"); ("ETH/USDT", "ETH/USDT:USDT");
    ("BNB/USDT", "BNB/USDT:USDT"); ("XRP/USDT", "XRP/USDT:USDT");
    ("SOL/USDT", "SOL/USDT:USDT"); ("ADA/USDT", "ADA/USDT:USDT");
    ("AVAX/USDT", "AVAX/USDT:USDT"); ("LINK/USDT", "LINK/USDT:USDT");
    ("TRX/USDT", "TRX/USDT:USDT") ].

(** ** _calculate_safe_quantity *)

Definition min_quantities : list (string * Q) :=
  [ ("BTC/USDT", 1 # 100000); ("ETH/USDT", 1 # 10000); ("BNB/USDT", 1 # 1000);
    ("XRP/USDT", 1 # 10); ("SOL/USDT", 1 # 1000); ("ADA/USDT", 1 # 10);
    ("AVAX/USDT", 1 # 100); ("LINK/USDT", 1 # 100); ("DOT/USDT", 1 # 100);
    ("MATIC/USDT", 1 # 10); ("TRX/USDT", 1) ].

Definition min_notional : Q := 5.

(** Number of decimals kept for a symbol (the [round(safe_quantity, n)]
    chain). *)
Definition precision (symbol : string) : nat :=
  if Py.mem symbol [ "BTC/USDT" ] then 5
  else if Py.mem symbol [ "ETH/USDT"; "BNB/USDT"; "SOL/USDT" ] then 4
  else if Py.mem symbol [ "AVAX/USDT"; "LINK/USDT"; "DOT/USDT" ] then 3
  else if Py.mem symbol [ "ADA/USDT"; "XRP/USDT"; "MATIC/USDT" ] then 2
  else 3.

Definition _calculate_safe_quantity (symbol : string) (max_amount price : Q)
    (exchange_type : string) : Q :=
  if Py.leb price 0 || Py.leb max_amount 0 then 0
  else
    let min_quantity := Py.get_or min_quantities symbol (1 # 1000) in
    let max_quantity := max_amount / price in
    if Py.ltb max_quantity min_quantity then 0
    else
      let calculated_notional := max_quantity * price in
      if Py.ltb calculated_notional min_notional then 0
      else
        let safe_quantity := Py.max min_quantity max_quantity in
        Py.round safe_quantity (precision symbol).

(** ** analyze_market_opportunity *)

(** Both prices go through one [try: float(..); float(..)]: if either
    conversion fails both become 0. *)
Definition float_pair (a b : pyval) (default : Q) : Q * Q :=
  match to_float a, to_float b with
  | Some x, Some y => (x, y)
  | _, _ => (default, default)
  end.

Definition append_arbitrage (o : Opportunities) (a : Arbitrage.t) : Opportunities :=
  mkOpportunities (option_map (fun l => (l ++ [a])%list) (arbitrage o))
    (trend_following o) (hedging o) (momentum o).
Definition append_trend (o : Opportunities) (a : Trend.t) : Opportunities :=
  mkOpportunities (arbitrage o)
    (option_map (fun l => (l ++ [a])%list) (trend_following o)) (hedging o) (momentum o).
Definition append_hedge (o : Opportunities) (a : Hedge.t) : Opportunities :=
  mkOpportunities (arbitrage o) (trend_following o)
    (option_map (fun l => (l ++ [a])%list) (hedging o)) (momentum o).
Definition append_momentum (o : Opportunities) (a : Momentum.t) : Opportunities :=
  mkOpportunities (arbitrage o) (trend_following o) (hedging o)
    (option_map (fun l => (l ++ [a])%list) (momentum o)).

(** Prices of a symbol after the None/type checks. *)
Definition prices_of (data : SymbolData) : Q * Q :=
  float_pair (get_not_none (spot_ticker_last data) 0)
             (get_not_none (futures_ticker_last data) 0) 0.

(** Step 1 of the loop body: the arbitrage record of a symbol with valid
    prices, if its premium exceeds the threshold.  The outer [exn] is the
    ZeroDivisionError of [abs(premium) / self.arbitrage_threshold]. *)
Definition arbitrage_of (self : t) (symbol : string) (spot_price futures_price : Q)
  : Py.exn (option Arbitrage.t) :=
  let premium := (futures_price - spot_price) / spot_price in
  if Py.ltb (arbitrage_threshold self) (Py.abs premium) then
    ratio <- Py.div (Py.abs premium) (arbitrage_threshold self) ;;
    Py.ret (Some
      (Arbitrage.mk symbol premium spot_price futures_price
         (if Py.ltb 0 premium then "long_spot_short_futures"
          else "short_spot_long_futures")
         (Py.abs premium)
         (Py.min ratio 1)))
  else Py.ret None.

(** Step 2: signal strengths (0, 0 unless both signal dicts are non-empty). *)
Definition strengths_of (data : SymbolData) : Q * Q :=
  match spot_signals data, futures_signals data with
  | Some ss, Some fs =>
      float_pair (get_not_none (combined_signal ss) 0)
                 (get_not_none (combined_signal fs) 0) 0
  | _, _ => (0, 0)
  end.

Definition trend_of (symbol : string) (data : SymbolData) : option Trend.t :=
  match spot_signals data, futures_signals data with
  | Some _, Some _ =>
      let '(spot_strength, futures_strength) := strengths_of data in
      if Py.ltb (1 # 10) (Py.abs spot_strength)
         && Py.ltb (1 # 10) (Py.abs futures_strength)
      then
        if (Py.ltb 0 spot_strength && Py.ltb 0 futures_strength)
           || (Py.ltb spot_strength 0 && Py.ltb futures_strength 0)
        then Some (Trend.mk symbol
                     (if Py.ltb 0 spot_strength then "bullish" else "bearish")
                     spot_strength futures_strength
                     ((Py.abs spot_strength + Py.abs futures_strength) / 2))
        else None
      else None
  | _, _ => None
  end.

Definition side_is (p : HeldPosition) (s : string) : bool :=
  match held_side p with Some x => String.eqb x s | None => false end.

(** Step 3: hedge of an existing spot position. *)
Definition hedge_of (self : t) (symbol : string) (futures_strength : Q)
  : option Hedge.t :=
  match Py.get (current_positions_spot self) symbol with
  | Some current_spot_position =>
      if Py.ltb (2 # 10) (Py.abs futures_strength) then
        if (side_is current_spot_position "buy"
            && Py.ltb futures_strength (- (2 # 10)))
           || (side_is current_spot_position "sell"
               && Py.ltb (2 # 10) futures_strength)
        then Some (Hedge.mk symbol
                     (if side_is current_spot_position "buy"
                      then "protective_short" else "protective_long")
                     current_spot_position futures_strength
                     (Py.abs futures_strength))
        else None
      else None
  | None => None
  end.

(** Step 4: momentum on jointly extreme RSI. *)
Definition momentum_of (symbol : string) (data : SymbolData) : option Momentum.t :=
  match spot_indicators data, futures_indicators data with
  | Some si, Some fi =>
      let '(spot_rsi, futures_rsi) :=
        float_pair (get_not_none (rsi_current si) 50)
                   (get_not_none (rsi_current fi) 50) 50 in
      if (Py.ltb spot_rsi 40 && Py.ltb futures_rsi 40)
         || (Py.ltb 60 spot_rsi && Py.ltb 60 futures_rsi)
      then Some (Momentum.mk symbol
                   (if Py.ltb spot_rsi 30 then "oversold_bounce"
                    else "overbought_correction")
                   spot_rsi futures_rsi (Py.abs (50 - spot_rsi) / 50))
      else None
  | _, _ => None
  end.

Definition add_opt {A} (add : Opportunities -> A -> Opportunities)
    (o : Opportunities) (x : option A) : Opportunities :=
  match x with Some a => add o a | None => o end.

(** The body of the [for symbol in market_data.keys()] loop. *)
Definition analyze_symbol (self : t) (symbol : string) (data : SymbolData)
    (opportunities : Opportunities) : Py.exn Opportunities :=
  let '(spot_price, futures_price) := prices_of data in
  if Py.leb spot_price 0 || Py.leb futures_price 0 then Py.ret opportunities
  else
    arb <- arbitrage_of self symbol spot_price futures_price ;;
    let o1 := add_opt append_arbitrage opportunities arb in
    let o2 := add_opt append_trend o1 (trend_of symbol data) in
    let futures_strength := snd (strengths_of data) in
    let o3 := add_opt append_hedge o2 (hedge_of self symbol futures_strength) in
    let o4 := add_opt append_momentum o3 (momentum_of symbol data) in
    Py.ret o4.

Fixpoint analyze_loop (self : t) (market_data : list (string * SymbolData))
    (opportunities : Opportunities) : Py.exn Opportunities :=
  match market_data with
  | [] => Py.ret opportunities
  | (symbol, data) :: rest =>
      o <- analyze_symbol self symbol data opportunities ;;
      analyze_loop self rest o
  end.

Definition analyze_market_opportunity (self : t)
    (market_data : list (string * SymbolData)) : Opportunities :=
  Py.catch (analyze_loop self market_data no_opportunities) no_opportunities.

(** What one [market_data] entry adds to [opportunities['arbitrage']] when
    the loop body completes: nothing for invalid prices, else the record
    built by [arbitrage_of], if any. *)
Definition arbitrage_contribution (self : t) (symbol : string)
    (data : SymbolData) : list Arbitrage.t :=
  let '(spot_price, futures_price) := prices_of data in
  if Py.leb spot_price 0 || Py.leb futures_price 0 then []
  else
    match arbitrage_of self symbol spot_price futures_price with
    | Some (Some a) => [a]
    | _ => []
    end.

(** ** generate_portfolio_signals *)

Definition or_default (o : option Q) (default : Q) : Q :=
  match o with Some q => q | None => default end.

(** [market_data.get(symbol, {}) if market_data else {}], then
    [.get(ticker, {}).get('last', 0)]. *)
Definition ticker_last (market_data : option (list (string * SymbolData)))
    (symbol : string) (ticker : SymbolData -> option pyval) : pyval :=
  match market_data with
  | Some md =>
      match Py.get md symbol with
      | Some symbol_data =>
          match ticker symbol_data with Some v => v | None => VNum 0 end
      | None => VNum 0
      end
  | None => VNum 0
  end.

(** A ticker value used in a comparison with a number: TypeError unless it
    is a number. *)
Definition as_number (v : pyval) : Py.exn Q := to_float v.

Definition arbitrage_amount (free_balance : Q) : Q :=
  if Py.ltb free_balance 5 then 0 else Py.min (free_balance * (8 # 10)) 100.

Definition arbitrage_signal (arb : Arbitrage.t) (strategy symbol exchange_type
    action : string) (size : Q) : Signal :=
  mkSignal strategy symbol exchange_type action size (Arbitrage.confidence arb)
    (Some (Arbitrage.expected_profit arb)) 1.

(** Body of the arbitrage loop.  The loop state carries, next to the signal
    list, the local variables [spot_quantity]/[futures_quantity]: they are
    assigned in the high-confidence branch and read in the other branch, so
    reading them before any assignment raises UnboundLocalError. *)
Definition arbitrage_step (spot_free_balance futures_free_balance : Q)
    (st : list Signal * option (Q * Q)) (arb : Arbitrage.t)
  : Py.exn (list Signal * option (Q * Q)) :=
  let '(signals, quantities) := st in
  let symbol := Arbitrage.symbol arb in
  if Py.leb (25 # 100) (Arbitrage.confidence arb) then
    let max_spot_amount := arbitrage_amount spot_free_balance in
    let max_futures_amount := arbitrage_amount futures_free_balance in
    let min_trade_amount := 5 in
    if Py.ltb max_spot_amount min_trade_amount
       && Py.ltb max_futures_amount min_trade_amount
    then Py.ret st
    else
      let spot_quantity :=
        _calculate_safe_quantity symbol max_spot_amount
          (Arbitrage.spot_price arb) "spot" in
      let futures_quantity :=
        _calculate_safe_quantity symbol max_futures_amount
          (Arbitrage.futures_price arb) "futures" in
      (* [if spot_quantity <= 0 or futures_quantity <= 0: continue] and
         the log line that follows change nothing further *)
      Py.ret (signals, Some (spot_quantity, futures_quantity))
  else
    if Py.mem symbol futures_supported_symbols then
      let futures_symbol := Py.get_or futures_symbol_mapping symbol symbol in
      qs <- Py.item quantities ;;
      let '(spot_quantity, futures_quantity) := qs in
      if String.eqb (Arbitrage.opportunity_type arb) "long_spot_short_futures"
      then
        Py.ret
          ((signals ++
            [ arbitrage_signal arb "arbitrage" symbol "spot" "buy" spot_quantity;
              arbitrage_signal arb "arbitrage" futures_symbol "futures" "sell"
                futures_quantity ])%list, quantities)
      else
        Py.ret
          ((signals ++
            [ arbitrage_signal arb "arbitrage" symbol "spot" "sell" spot_quantity;
              arbitrage_signal arb "arbitrage" futures_symbol "futures" "buy"
                futures_quantity ])%list, quantities)
    else
      qs <- Py.item quantities ;;
      Py.ret
        ((signals ++
          [ arbitrage_signal arb "arbitrage_spot_only" symbol "spot"
              (if String.eqb (Arbitrage.opportunity_type arb)
                             "long_spot_short_futures"
               then "buy" else "sell")
              (fst qs) ])%list, quantities).

(** A [for] loop whose body may raise. *)
Fixpoint for_each {S A} (body : S -> A -> Py.exn S) (xs : list A) (st : S)
  : Py.exn S :=
  match xs with
  | [] => Py.ret st
  | x :: rest => st' <- body st x ;; for_each body rest st'
  end.

Definition trend_step (spot_free_balance futures_free_balance : Q)
    (market_data : option (list (string * SymbolData)))
    (signals : list Signal) (trend : Trend.t) : Py.exn (list Signal) :=
  let symbol := Trend.symbol trend in
  if Py.leb (25 # 100) (Trend.confidence trend) then
    spot_price <- as_number (ticker_last market_data symbol spot_ticker_last) ;;
    if Py.leb spot_price 0 then Py.ret signals
    else
      futures_price <-
        as_number (ticker_last market_data symbol futures_ticker_last) ;;
      if Py.leb futures_price 0 then Py.ret signals
      else
        let max_spot_amount := spot_free_balance * (3 # 100) in
        let max_futures_amount := futures_free_balance * (3 # 100) in
        let min_trade_amount := 5 in
        if Py.ltb max_spot_amount min_trade_amount
           && Py.ltb max_futures_amount min_trade_amount
        then Py.ret signals
        else
          let spot_size :=
            _calculate_safe_quantity symbol max_spot_amount spot_price "spot" in
          let futures_size :=
            _calculate_safe_quantity symbol max_futures_amount futures_price
              "futures" in
          if Py.leb spot_size 0 then Py.ret signals
          else
            let action :=
              if String.eqb (Trend.direction trend) "bullish"
              then "buy" else "sell" in
            if String.eqb action "sell" then Py.ret signals
            else
              let signals1 :=
                (signals ++
                 [ mkSignal "trend_following" symbol "spot" action spot_size
                     (Trend.confidence trend) None 2 ])%list in
              if Py.mem symbol futures_supported_symbols
                 && Py.ltb 0 futures_size
              then
                let futures_symbol :=
                  Py.get_or futures_symbol_mapping symbol symbol in
                Py.ret
                  (signals1 ++
                   [ mkSignal "trend_following" futures_symbol "futures" action
                       futures_size (Trend.confidence trend) None 2 ])%list
              else Py.ret signals1
  else Py.ret signals.

Definition hedge_step (signals : list Signal) (hedge : Hedge.t)
  : Py.exn (list Signal) :=
  if Py.ltb (4 # 10) (Hedge.confidence hedge) then
    let spot_position := Hedge.spot_position hedge in
    let hedge_size := or_default (held_size spot_position) 0 * (8 # 10) in
    let hedge_action :=
      if String.eqb (Hedge.hedge_type hedge) "protective_short"
      then "sell" else "buy" in
    Py.ret
      (signals ++
       [ mkSignal "hedging" (Hedge.symbol hedge) "futures" hedge_action
           hedge_size (Hedge.confidence hedge) None 3 ])%list
  else Py.ret signals.

Definition momentum_step (spot_free_balance futures_free_balance : Q)
    (market_data : option (list (string * SymbolData)))
    (signals : list Signal) (momentum : Momentum.t) : Py.exn (list Signal) :=
  let symbol := Momentum.symbol momentum in
  let signal exchange_symbol exchange_type action size :=
    mkSignal "momentum" exchange_symbol exchange_type action size
      (Momentum.confidence momentum) None 4 in
  if Py.ltb (5 # 10) (Momentum.confidence momentum) then
    current_price <-
      as_number (ticker_last market_data symbol spot_ticker_last) ;;
    if Py.leb current_price 0 then Py.ret signals
    else
      let max_momentum_amount :=
        Py.min spot_free_balance futures_free_balance * (2 # 100) in
      if Py.ltb max_momentum_amount 10 then Py.ret signals
      else if String.eqb (Momentum.type momentum) "oversold_bounce" then
        let spot_quantity :=
          _calculate_safe_quantity symbol max_momentum_amount current_price
            "spot" in
        let futures_quantity :=
          _calculate_safe_quantity symbol max_momentum_amount current_price
            "futures" in
        let signals1 :=
          if Py.ltb 0 spot_quantity
          then (signals ++ [ signal symbol "spot" "buy" spot_quantity ])%list
          else signals in
        if Py.ltb 0 futures_quantity && Py.mem symbol futures_supported_symbols
        then
          let futures_symbol :=
            Py.get_or futures_symbol_mapping symbol symbol in
          Py.ret
            (signals1 ++
             [ signal futures_symbol "futures" "buy" futures_quantity ])%list
        else Py.ret signals1
      else
        if Py.mem symbol futures_supported_symbols then
          let futures_quantity :=
            _calculate_safe_quantity symbol max_momentum_amount current_price
              "futures" in
          if Py.ltb 0 futures_quantity then
            let futures_symbol :=
              Py.get_or futures_symbol_mapping symbol symbol in
            Py.ret
              (signals ++
               [ signal futures_symbol "futures" "sell" futures_quantity ])%list
          else Py.ret signals
        else Py.ret signals
  else Py.ret signals.

Definition list_or_empty {A} (o : option (list A)) : list A :=
  match o with Some l => l | None => [] end.

(** The signal list built by the four loops, before sorting; [None] when an
    exception ends the [try] block. *)
Definition collect_signals (opportunities : Opportunities)
    (spot_free_balance futures_free_balance : Q)
    (market_data : option (list (string * SymbolData)))
  : Py.exn (list Signal) :=
  st <- for_each (arbitrage_step spot_free_balance futures_free_balance)
          (Py.sorted_desc Arbitrage.expected_profit
             (list_or_empty (arbitrage opportunities)))
          ([], None) ;;
  signals1 <-
    for_each (trend_step spot_free_balance futures_free_balance market_data)
      (Py.sorted_desc Trend.confidence
         (list_or_empty (trend_following opportunities)))
      (fst st) ;;
  hedges <- Py.item (hedging opportunities) ;;
  signals2 <- for_each hedge_step hedges signals1 ;;
  momenta <- Py.item (momentum opportunities) ;;
  for_each (momentum_step spot_free_balance futures_free_balance market_data)
    (Py.sorted_desc Momentum.confidence momenta) signals2.

Definition generate_portfolio_signals (self : t) (opportunities : Opportunities)
    (portfolio_state : PortfolioState)
    (market_data : option (list (string * SymbolData))) : list Signal :=
  let spot_free_balance := or_default (spot_free_balance portfolio_state) 0 in
  let futures_free_balance :=
    or_default (futures_free_balance portfolio_state) 0 in
  if Py.ltb spot_free_balance 5 && Py.ltb futures_free_balance 5 then []
  else
    Py.catch
      (signals <- collect_signals opportunities spot_free_balance
                    futures_free_balance market_data ;;
       Py.ret (firstn 10 (Py.sort_asc priority signals)))
      [].

(** ** check_rebalancing_needed *)

(** [now] is the reading of [datetime.now()] in this call, in seconds. *)
Definition check_rebalancing_needed (self : t) (portfolio_state : PortfolioState)
    (now : Q) : bool :=
  let total_balance := or_default (total_balance portfolio_state) 0 in
  let spot_usdt := or_default (spot_balance portfolio_state) 0 in
  let futures_usdt := or_default (futures_balance portfolio_state) 0 in
  if Py.leb total_balance 100 then false
  else
    let current_spot_ratio := spot_usdt / total_balance in
    let current_futures_ratio := futures_usdt / total_balance in
    let spot_deviation := Py.abs (current_spot_ratio - spot_allocation self) in
    let futures_deviation :=
      Py.abs (current_futures_ratio - futures_allocation self) in
    let time_passed := now - last_rebalance self in
    let time_threshold := rebalance_interval_minutes self * 60 in
    let '(adjusted_threshold, min_balance_for_rebalancing) :=
      if auto_transfer_enabled self
      then (rebalance_threshold self, 20)
      else (rebalance_threshold self * 2, 200) in
    ((Py.ltb adjusted_threshold spot_deviation
      || Py.ltb adjusted_threshold futures_deviation)
     && Py.leb min_balance_for_rebalancing total_balance)
    || (Py.ltb time_threshold time_passed
        && Py.ltb (rebalance_threshold self * (5 # 10)) spot_deviation).

End HybridPortfolioStrategy.

(* ================================================================== *)
(** * modules/technical_analysis.py *)
(* ================================================================== *)

Module TechnicalAnalyzer.

(** A value read from an indicator series or held in the signals dict:
    - [VFloat]: a Python or numpy float (an instance of [float]);
    - [VNaN]: the float NaN;
    - [VNone]: [None];
    - [VNpInt]: a numpy integer, numeric but not an instance of
      [(int, float)] (the fallback series [pd.Series([50] * n)] hold these);
    - [VOther]: any other object; ordering it against a number raises
      TypeError. *)
Inductive pyval : Type :=
| VFloat (q : Q)
| VNaN
| VNone
| VNpInt (z : Z)
| VOther.

(** [pd.isna(v)] *)
Definition isna (v : pyval) : bool :=
  match v with VNaN | VNone => true | _ => false end.

(** [isinstance(v, (int, float))] *)
Definition is_int_or_float (v : pyval) : bool :=
  match v with VFloat _ | VNaN => true | _ => false end.

(** The numeric reading of a value in a comparison: [Some None] is NaN,
    the outer [None] a TypeError. *)
Definition numeric (v : pyval) : Py.exn (option Q) :=
  match v with
  | VFloat q => Py.ret (Some q)
  | VNaN => Py.ret None
  | VNpInt z => Py.ret (Some (inject_Z z))
  | VNone | VOther => Py.raise
  end.

(** An ordering comparison of two values; any comparison with NaN is
    false. *)
Definition compare_with (op : Q -> Q -> bool) (a b : pyval) : Py.exn bool :=
  x <- numeric a ;;
  y <- numeric b ;;
  Py.ret (match x, y with Some p, Some q => op p q | _, _ => false end).

Definition lt := compare_with Py.ltb.
Definition le := compare_with Py.leb.
Definition gt := compare_with (fun p q => Py.ltb q p).
Definition ge := compare_with (fun p q => Py.leb q p).

Record t : Type := mkAnalyzer {
  rsi_period : Z;
  rsi_oversold : Q;
  rsi_overbought : Q
}.

Definition init : t := mkAnalyzer 14 30 70.

(** [series.iloc[-1]] / [series[-1]] and [series[-2]] on a series long
    enough. *)
Definition last1 (series : list pyval) : pyval := last series VNone.
Definition last2 (series : list pyval) : pyval :=
  nth (List.length series - 2)%nat series VNone.

Record MACD : Type := mkMACD { histogram : option (list pyval) }.
Record BB : Type := mkBB {
  lower : option (list pyval);
  upper : option (list pyval);
  middle : option (list pyval)
}.
Record Stoch : Type := mkStoch { slowk : option (list pyval) }.

(** The [indicators] dict; every key may be absent. *)
Record Indicators : Type := mkIndicators {
  rsi : option (list pyval);
  macd : option MACD;
  bb : option BB;
  stoch : option Stoch
}.

Definition nonempty {A} (l : list A) : bool :=
  match l with [] => false | _ => true end.

Definition series_or_empty (o : option (list pyval)) : list pyval :=
  match o with Some l => l | None => [] end.

(** The RSI block. *)
Definition rsi_block (self : t) (indicators : Indicators) : Py.exn Q :=
  match rsi indicators with
  | Some series =>
      if nonempty series then
        let rsi_current := last1 series in
        let rsi_current :=
          if isna rsi_current || negb (is_int_or_float rsi_current)
          then VFloat 50 else rsi_current in
        below <- lt rsi_current (VFloat (rsi_oversold self)) ;;
        if below then Py.ret 1
        else
          above <- gt rsi_current (VFloat (rsi_overbought self)) ;;
          if above then Py.ret (- 1) else Py.ret 0
      else Py.ret 0
  | None => Py.ret 0
  end.

(** [a and b] on comparisons that may raise: [b] is evaluated only if [a]
    holds. *)
Definition and_then (a b : Py.exn bool) : Py.exn bool :=
  x <- a ;; if x then b else Py.ret false.

(** The MACD block. *)
Definition macd_block (indicators : Indicators) : Py.exn Q :=
  match macd indicators with
  | Some m =>
      match histogram m with
      | Some macd_hist =>
          if (2 <=? List.length macd_hist)%nat then
            let hist_current := last1 macd_hist in
            let hist_prev := last2 macd_hist in
            if isna hist_current || isna hist_prev then Py.ret 0
            else
              up <- and_then (gt hist_current (VFloat 0))
                             (le hist_prev (VFloat 0)) ;;
              if up then Py.ret 1
              else
                down <- and_then (lt hist_current (VFloat 0))
                                 (ge hist_prev (VFloat 0)) ;;
                if down then Py.ret (- 1) else Py.ret 0
          else Py.ret 0
      | None => Py.ret 0
      end
  | None => Py.ret 0
  end.

(** The Bollinger block; the "price" compared with the bands is the last
    value of the middle band. *)
Definition bb_block (indicators : Indicators) : Py.exn Q :=
  match bb indicators with
  | Some bb_data =>
      if nonempty (series_or_empty (lower bb_data))
         && nonempty (series_or_empty (upper bb_data))
         && nonempty (series_or_empty (middle bb_data))
      then
        let current_price := last1 (series_or_empty (middle bb_data)) in
        let upper_band := last1 (series_or_empty (upper bb_data)) in
        let lower_band := last1 (series_or_empty (lower bb_data)) in
        if isna current_price || isna upper_band || isna lower_band
        then Py.ret 0
        else
          low <- le current_price lower_band ;;
          if low then Py.ret 1
          else
            high <- ge current_price upper_band ;;
            if high then Py.ret (- 1) else Py.ret 0
      else Py.ret 0
  | None => Py.ret 0
  end.

(** The stochastic block. *)
Definition stoch_block (indicators : Indicators) : Py.exn Q :=
  match stoch indicators with
  | Some stoch_data =>
      match slowk stoch_data with
      | Some series =>
          if nonempty series then
            let slowk := last1 series in
            if isna slowk || negb (is_int_or_float slowk) then Py.ret 0
            else
              below <- lt slowk (VFloat 20) ;;
              if below then Py.ret 1
              else
                above <- gt slowk (VFloat 80) ;;
                if above then Py.ret (- 1) else Py.ret 0
          else Py.ret 0
      | None => Py.ret 0
      end
  | None => Py.ret 0
  end.

(** [key.endswith(suffix)] *)
Definition endswith (key suffix : string) : bool :=
  let n := String.length key in
  let m := String.length suffix in
  (m <=? n)%nat && String.eqb (substring (n - m)%nat m key) suffix.

(** The float held by a value that passed
    [isinstance(v, (int, float)) and not pd.isna(v)]. *)
Definition float_of (v : pyval) : Q :=
  match v with VFloat q => q | _ => 0 end.

(** [valid_signals]: the values under keys ending in [_signal] that are
    non-NaN numbers. *)
Definition valid_signals (signals : list (string * pyval)) : list Q :=
  map (fun kv => float_of (snd kv))
    (filter (fun kv => endswith (fst kv) "_signal"
                       && is_int_or_float (snd kv) && negb (isna (snd kv)))
       signals).

(** [sum(xs)] *)
Definition sum (xs : list Q) : Q := fold_left Qplus xs 0.

(** The final safety loop: invalid values are overwritten by 0.0. *)
Definition sanitize (signals : list (string * pyval)) : list (string * pyval) :=
  map (fun kv =>
         if isna (snd kv) || negb (is_int_or_float (snd kv))
         then (fst kv, VFloat 0) else kv)
    signals.

Definition default_signals : list (string * pyval) :=
  [ ("rsi_signal", VFloat 0); ("macd_signal", VFloat 0);
    ("bb_signal", VFloat 0); ("stoch_signal", VFloat 0);
    ("combined_signal", VFloat 0) ].

Definition generate_signals (self : t) (indicators : Indicators)
  : list (string * pyval) :=
  Py.catch
    (r <- rsi_block self indicators ;;
     let signals := Py.set [] "rsi_signal" (VFloat r) in
     m <- macd_block indicators ;;
     let signals := Py.set signals "macd_signal" (VFloat m) in
     b <- bb_block indicators ;;
     let signals := Py.set signals "bb_signal" (VFloat b) in
     s <- stoch_block indicators ;;
     let signals := Py.set signals "stoch_signal" (VFloat s) in
     let valid := valid_signals signals in
     let signals :=
       if nonempty valid
       then Py.set signals "combined_signal"
              (VFloat (sum valid / inject_Z (Z.of_nat (List.length valid))))
       else Py.set signals "combined_signal" (VFloat 0) in
     Py.ret (sanitize signals))
    default_signals.

(** ** The noise filter of the signal validator *)

(** The keys of the [signals] and [market_data] dicts the validator reads. *)
Record Signals : Type := mkSignals {
  combined_signal : option Q
}.
Record MarketData : Type := mkMarketData {
  signal_history : option (list Q)
}.

(** [xs[-3:]] *)
Definition last3 {A} (xs : list A) : list A := skipn (List.length xs - 3)%nat xs.

Definition consistent (current_direction : Z) (historic_signal : Q) : bool :=
  ((0 <? current_direction)%Z && Py.ltb 0 historic_signal)
  || ((current_direction <? 0)%Z && Py.ltb historic_signal 0).

Definition _apply_noise_filter (signals : Signals) (market_data : MarketData)
  : Q :=
  Py.catch
    (let combined_signal :=
       match combined_signal signals with Some c => c | None => 0 end in
     if Py.ltb (Py.abs combined_signal) (8 # 100) then Py.ret (1 # 10)
     else
       let signal_history :=
         match signal_history market_data with Some h => h | None => [] end in
       if (List.length signal_history <? 3)%nat then Py.ret (6 # 10)
       else
         let recent_signals := last3 signal_history in
         let current_direction := if Py.ltb 0 combined_signal then 1%Z else (-1)%Z in
         let consistent_count :=
           List.length (filter (consistent current_direction) recent_signals) in
         consistency_ratio <-
           Py.div (inject_Z (Z.of_nat consistent_count))
                  (inject_Z (Z.of_nat (List.length recent_signals))) ;;
         if Py.leb (67 # 100) consistency_ratio then Py.ret (9 # 10)
         else if Py.leb (33 # 100) consistency_ratio then Py.ret (6 # 10)
         else Py.ret (3 # 10))
    (5 # 10).

End TechnicalAnalyzer.

(* ================================================================== *)
(** * Sample states and inputs *)
(* ================================================================== *)

Module Samples.

(** A long BTC position of size 1 bought at 100 and now quoted at 90
    (10% under water). *)
Definition losing_long : RiskManager.Position :=
  RiskManager.mkPosition "BTC/USDT" "buy" 1 100 "spot" 0 0 0 0 (Some 90).

(** A long ETH position in profit. *)
Definition winning_long : RiskManager.Position :=
  RiskManager.mkPosition "ETH/USDT" "buy" 2 50 "spot" 0 0 0 0 (Some 60).

Definition risk_state : RiskManager.t :=
  RiskManager.set_positions RiskManager.init
    [ ("BTC/USDT", losing_long); ("ETH/USDT", winning_long) ].

(** A position recorded with entry price 0, and a long ADA position bought
    at 10 and now quoted at 8 (20% under water). *)
Definition zero_entry : RiskManager.Position :=
  RiskManager.mkPosition "XRP/USDT" "buy" 3 0 "spot" 0 0 0 0 (Some 1).
Definition losing_ada : RiskManager.Position :=
  RiskManager.mkPosition "ADA/USDT" "buy" 4 10 "spot" 0 0 0 0 (Some 8).

(** The zero-entry position sits between the two losing longs. *)
Definition zero_entry_state : RiskManager.t :=
  RiskManager.set_positions RiskManager.init
    [ ("BTC/USDT", losing_long); ("XRP/USDT", zero_entry);
      ("ADA/USDT", losing_ada) ].

(** Spot at 100 and futures at 100.06, no signals or indicators. *)
Definition btc_quote : HybridPortfolioStrategy.SymbolData :=
  HybridPortfolioStrategy.mkSymbolData
    (Some (HybridPortfolioStrategy.VNum 100))
    (Some (HybridPortfolioStrategy.VNum (10006 # 100))) None None None None.

(** A bullish combined signal of 0.5 whose last three historical signals
    are 0.5, 0.5 and -0.5: two of the three agree in sign. *)
Definition bullish_signal : TechnicalAnalyzer.Signals :=
  TechnicalAnalyzer.mkSignals (Some (1 # 2)).
Definition two_of_three_history : TechnicalAnalyzer.MarketData :=
  TechnicalAnalyzer.mkMarketData (Some [ 1 # 2; 1 # 2; - (1 # 2) ]).

Definition volatile_market : RiskManager.MarketConditions :=
  RiskManager.mkMarketConditions (Some (2 # 100)) (Some "volatile")
    (Some "normal").

Definition trending_market : RiskManager.MarketConditions :=
  RiskManager.mkMarketConditions (Some (2 # 100)) (Some "trending")
    (Some "high").

End Samples.

(* ================================================================== *)
(** * modules/risk_manager.py: price levels, drawdown, trade validation *)
(* ================================================================== *)

Module RiskLevels.
Import RiskManager.

(** [calculate_stop_loss] *)
Definition calculate_stop_loss (rm : t) (symbol side : string)
    (entry_price volatility : Q) : Q :=
  let basic_stop_loss := stop_loss_pct rm in
  let volatility_adjustment := Py.max (volatility * 2) basic_stop_loss in
  let atr_multiplier := 2 in
  let atr_stop_loss := volatility * atr_multiplier in
  let stop_loss_distance :=
    Py.max basic_stop_loss (Py.min volatility_adjustment atr_stop_loss) in
  if String.eqb side "buy"
  then entry_price * (1 - stop_loss_distance)
  else entry_price * (1 + stop_loss_distance).

(** [calculate_take_profit] *)
Definition calculate_take_profit (rm : t) (symbol side : string)
    (entry_price signal_strength : Q) : Q :=
  let basic_take_profit := take_profit_pct rm in
  let strength_adjustment := basic_take_profit * (1 + signal_strength) in
  let risk_reward_ratio := 2 in
  let stop_loss_distance := stop_loss_pct rm in
  let take_profit_distance := stop_loss_distance * risk_reward_ratio in
  let final_take_profit_distance :=
    Py.min strength_adjustment take_profit_distance in
  if String.eqb side "buy"
  then entry_price * (1 + final_take_profit_distance)
  else entry_price * (1 - final_take_profit_distance).

Definition set_daily_pnl (rm : t) (pnl : Q) : t :=
  mkRiskManager (max_position_size rm) (max_daily_loss rm) (max_drawdown rm)
    (stop_loss_pct rm) (take_profit_pct rm) (position_timeout_hours rm)
    (max_leverage rm) (risk_per_trade rm) pnl (peak_balance rm)
    (current_drawdown rm) (positions rm) (risk_alerts rm).

Definition set_drawdown (rm : t) (peak drawdown : Q) : t :=
  mkRiskManager (max_position_size rm) (max_daily_loss rm) (max_drawdown rm)
    (stop_loss_pct rm) (take_profit_pct rm) (position_timeout_hours rm)
    (max_leverage rm) (risk_per_trade rm) (daily_pnl rm) peak
    drawdown (positions rm) (risk_alerts rm).

(** [update_daily_pnl] and [reset_daily_metrics] *)
Definition update_daily_pnl (rm : t) (realized_pnl : Q) : t :=
  set_daily_pnl rm (daily_pnl rm + realized_pnl).
Definition reset_daily_metrics (rm : t) : t := set_daily_pnl rm 0.

(** [update_drawdown]: a new peak resets the drawdown; otherwise the
    drawdown is the relative distance to the peak.  With a zero peak the
    division raises and the handler leaves the state as it was. *)
Definition update_drawdown (rm : t) (current_balance : Q) : t :=
  if Py.ltb (peak_balance rm) current_balance
  then set_drawdown rm current_balance 0
  else
    Py.catch
      (d <- Py.div (peak_balance rm - current_balance) (peak_balance rm) ;;
       Py.ret (set_drawdown rm (peak_balance rm) d))
      rm.

(** [_update_trailing_stop]: the new stop and the position after the call
    ([None]: nothing updated). *)
Definition _update_trailing_stop (position : Position) (profit_ratio : Q)
  : option Q * Position :=
  let current_price :=
    match current_price position with
    | Some c => c
    | None => price position
    end in
  if String.eqb (side position) "buy" then
    let new_stop_loss := current_price * (1 - profit_ratio) in
    let current_stop_loss := stop_loss_price position in
    if Py.ltb current_stop_loss new_stop_loss
    then (Some new_stop_loss, set_stop_loss_price position new_stop_loss)
    else (None, position)
  else
    let new_stop_loss := current_price * (1 + profit_ratio) in
    let current_stop_loss := stop_loss_price position in
    if Py.ltb new_stop_loss current_stop_loss
    then (Some new_stop_loss, set_stop_loss_price position new_stop_loss)
    else (None, position).

(** [_should_stop_loss], [_should_take_profit], [_is_position_timeout] *)
Definition _should_stop_loss (position : Position) (current_price : Q) : bool :=
  let stop_loss_price := stop_loss_price position in
  if Py.eqb stop_loss_price 0 then false
  else if String.eqb (side position) "buy"
       then Py.leb current_price stop_loss_price
       else Py.leb stop_loss_price current_price.

Definition _should_take_profit (position : Position) (current_price : Q)
  : bool :=
  let take_profit_price := take_profit_price position in
  if Py.eqb take_profit_price 0 then false
  else if String.eqb (side position) "buy"
       then Py.leb take_profit_price current_price
       else Py.leb current_price take_profit_price.

(** Times are seconds; [timedelta(hours=h)] is [h * 3600] seconds. *)
Definition _is_position_timeout (rm : t) (position : Position) (now : Z)
  : bool :=
  Py.ltb (position_timeout_hours rm * 3600)
         (inject_Z (now - entry_time position)).

End RiskLevels.

(* ================================================================== *)
(** * modules/risk_manager.py: trade validation *)
(* ================================================================== *)

Module TradeValidation.
Import RiskManager.










End TradeValidation.

(* ================================================================== *)
(** * modules/risk_manager.py: real-time risk monitoring *)
(* ================================================================== *)

Module RiskMonitor.
Import RiskManager.

(** Alerts and actions are dicts and f-strings around the data below. *)
Inductive MonitorAlert : Type :=
| LargeLoss (symbol : string) (pnl_pct : Q)
| PositionTimeout (symbol : string) (holding_hours : Q)
| LiquidityImpact (symbol : string) (position_size : Q) (risk : string).

Inductive Action : Type :=
| TrailingStopUpdated (symbol : string) (new_stop_loss : Q)
| HighCorrelation
| RegimeChanged (previous_regime current_regime : string)
| HighExposure
| MediumExposure.

Inductive Recommendation : Type :=
| ReviewImmediateReduction | CutLeverage | CloseCorrelated
| ReviewPositionSizes | StrengthenStopLoss | WatchMarket
| KeepMonitoring | KeepStable.

(** What a monitor returns, restricted to the keys that
    [_calculate_overall_risk_level] reads; a key may be absent. *)
Record Component : Type := mkComponent {
  risk_level : option string;
  alerts : option (list MonitorAlert);
  actions : option (list Action)
}.

(** The risk manager together with the attribute [_previous_regime], which
    exists only once [_detect_regime_changes] has set it. *)
Record Monitor : Type := mkMonitor {
  manager : t;
  _previous_regime : option string
}.

(** The loop of [_monitor_position_risks].  The first component is [None]
    when an iteration raised (a zero entry price); the positions visited
    before keep their updated trailing stops. *)
Fixpoint position_risk_loop (rm : t) (now : Z) (ps : list (string * Position))
    (position_alerts : list MonitorAlert) (actions_taken : list Action)
  : option (list MonitorAlert * list Action) * list (string * Position) :=
  match ps with
  | [] => (Some (position_alerts, actions_taken), [])
  | (symbol, position) :: rest =>
      match pnl_pct position with
      | None => (None, (symbol, position) :: rest)
      | Some unrealized_pnl_pct =>
          let '(actions1, position1) :=
            if Py.ltb (5 # 100) unrealized_pnl_pct then
              match RiskLevels._update_trailing_stop position (2 # 100) with
              | (Some new_stop_loss, p') =>
                  (if Py.eqb new_stop_loss 0 then actions_taken
                   else (actions_taken
                         ++ [ TrailingStopUpdated symbol new_stop_loss ])%list,
                   p')
              | (None, p') => (actions_taken, p')
              end
            else (actions_taken, position) in
          let alerts1 :=
            if Py.ltb unrealized_pnl_pct (- (8 # 100))
            then (position_alerts ++ [ LargeLoss symbol unrealized_pnl_pct ])%list
            else position_alerts in
          let holding_hours :=
            inject_Z (now - entry_time position) / 3600 in
          let alerts2 :=
            if Py.ltb (position_timeout_hours rm) holding_hours
            then (alerts1 ++ [ PositionTimeout symbol holding_hours ])%list
            else alerts1 in
          let '(r, rest') := position_risk_loop rm now rest alerts2 actions1 in
          (r, (symbol, position1) :: rest')
      end
  end.

Definition _monitor_position_risks (rm : t) (now : Z) : Component * t :=
  let '(r, ps) := position_risk_loop rm now (positions rm) [] [] in
  (match r with
   | Some (position_alerts, actions_taken) =>
       mkComponent
         (Some (if (2 <? List.length position_alerts)%nat then "high"
                else if (0 <? List.length position_alerts)%nat then "medium"
                else "low"))
         (Some position_alerts) (Some actions_taken)
   | None => mkComponent (Some "unknown") (Some []) (Some [])
   end,
   set_positions rm ps).

(** [abs(position['size'] * position['current_price'])], KeyError without
    a current price. *)
Definition position_weight (position : Position) : Py.exn Q :=
  cp <- Py.item (current_price position) ;;
  Py.ret (Py.abs (size position * cp)).

(** Inner loop of [_monitor_correlation_risks]: [symbol1] against every
    later symbol. *)
Fixpoint correlation_inner (symbol1 : string) (position1 : Position)
    (later : list (string * Position)) (acc : Q * Z) : Py.exn (Q * Z) :=
  match later with
  | [] => Py.ret acc
  | (symbol2, position2) :: rest =>
      let correlation := _estimate_correlation symbol1 symbol2 in
      weight1 <- position_weight position1 ;;
      weight2 <- position_weight position2 ;;
      correlation_inner symbol1 position1 rest
        (fst acc + correlation * (weight1 + weight2), (snd acc + 1)%Z)
  end.

Fixpoint correlation_outer (ps : list (string * Position)) (acc : Q * Z)
  : Py.exn (Q * Z) :=
  match ps with
  | [] => Py.ret acc
  | (symbol1, position1) :: rest =>
      acc' <- correlation_inner symbol1 position1 rest acc ;;
      correlation_outer rest acc'
  end.

Definition _monitor_correlation_risks (rm : t) : Component :=
  if (List.length (positions rm) <? 2)%nat
  then mkComponent (Some "low") None (Some [])
  else
    Py.catch
      (acc <- correlation_outer (positions rm) (0, 0%Z) ;;
       let '(total_correlation_risk, position_count) := acc in
       avg_correlation <-
         (if (0 <? position_count)%Z
          then Py.div total_correlation_risk (inject_Z position_count)
          else Py.ret 0) ;;
       Py.ret
         (if Py.ltb (8 # 10) avg_correlation
          then mkComponent (Some "high") None (Some [ HighCorrelation ])
          else if Py.ltb (6 # 10) avg_correlation
          then mkComponent (Some "medium") None (Some [])
          else mkComponent (Some "low") None (Some [])))
      (mkComponent (Some "unknown") None (Some [])).

(** [_detect_regime_changes]; [current_regime] is what
    [random.choice(regimes)] returned. *)
Definition _detect_regime_changes (previous : option string)
    (current_regime : string) : Component * option string :=
  let previous_regime :=
    match previous with Some p => p | None => "neutral" end in
  if negb (String.eqb current_regime previous_regime) then
    let actions_taken := [ RegimeChanged previous_regime current_regime ] in
    if String.eqb current_regime "volatile"
    then (mkComponent (Some "high") None (Some actions_taken),
          Some current_regime)
    else if String.eqb current_regime "ranging"
    then (mkComponent (Some "medium") None (Some actions_taken),
          Some current_regime)
    else (mkComponent (Some "low") None (Some actions_taken),
          Some current_regime)
  else (mkComponent (Some "low") None (Some []), previous).

Fixpoint liquidity_loop (ps : list (string * Position))
    (liquidity_alerts : list MonitorAlert) : Py.exn (list MonitorAlert) :=
  match ps with
  | [] => Py.ret liquidity_alerts
  | (symbol, position) :: rest =>
      position_size <- position_weight position ;;
      liquidity_loop rest
        (if Py.ltb 10000 position_size
         then (liquidity_alerts
               ++ [ LiquidityImpact symbol position_size "high_impact" ])%list
         else if Py.ltb 5000 position_size
         then (liquidity_alerts
               ++ [ LiquidityImpact symbol position_size "medium_impact" ])%list
         else liquidity_alerts)
  end.

Definition is_high_impact (a : MonitorAlert) : bool :=
  match a with
  | LiquidityImpact _ _ risk => String.eqb risk "high_impact"
  | _ => false
  end.

Definition _monitor_liquidity_risks (rm : t) : Component :=
  Py.catch
    (liquidity_alerts <- liquidity_loop (positions rm) [] ;;
     let risk_level :=
       if (0 <? List.length liquidity_alerts)%nat
       then if existsb is_high_impact liquidity_alerts then "high" else "medium"
       else "low" in
     Py.ret (mkComponent (Some risk_level) (Some liquidity_alerts) (Some [])))
    (mkComponent (Some "unknown") (Some []) (Some [])).

Fixpoint total_position_value (ps : list (string * Position)) (total : Q)
  : Py.exn Q :=
  match ps with
  | [] => Py.ret total
  | (_, position) :: rest =>
      position_value <- position_weight position ;;
      total_position_value rest (total + position_value)
  end.

Definition _monitor_leverage_risks (rm : t) : Component :=
  Py.catch
    (total <- total_position_value (positions rm) 0 ;;
     let estimated_balance := 10000 in
     let total_exposure_ratio := total / estimated_balance in
     Py.ret
       (if Py.ltb (8 # 10) total_exposure_ratio
        then mkComponent (Some "critical") None (Some [ HighExposure ])
        else if Py.ltb (6 # 10) total_exposure_ratio
        then mkComponent (Some "medium") None (Some [ MediumExposure ])
        else mkComponent (Some "low") None (Some [])))
    (mkComponent (Some "unknown") None (Some [])).

(** ** Overall level and automatic response *)

Definition risk_scores : list (string * Z) :=
  [ ("low", 1); ("medium", 2); ("high", 3); ("critical", 4);
    ("unknown", 2) ]%Z.

(** [risk_scores.get(level, 2)] *)
Definition score_of (level : string) : Z := Py.get_or risk_scores level 2%Z.

Record Overall : Type := mkOverall {
  level : string;
  score : option Q;
  overall_actions : list Action;
  overall_warnings : list MonitorAlert;
  recommendations : list Recommendation
}.

(** The accumulation loop of [_calculate_overall_risk_level]: total score,
    number of components with a level, all actions, all warnings. *)
Fixpoint accumulate (risk_components : list Component)
    (acc : Z * Z * list Action * list MonitorAlert)
  : Z * Z * list Action * list MonitorAlert :=
  match risk_components with
  | [] => acc
  | component :: rest =>
      let '(total_score, valid_components, all_actions, all_warnings) := acc in
      let '(total_score, valid_components) :=
        match risk_level component with
        | Some l => ((total_score + score_of l)%Z, (valid_components + 1)%Z)
        | None => (total_score, valid_components)
        end in
      let all_actions :=
        match actions component with
        | Some a => (all_actions ++ a)%list
        | None => all_actions
        end in
      let all_warnings :=
        match alerts component with
        | Some a => (all_warnings ++ a)%list
        | None => all_warnings
        end in
      accumulate rest (total_score, valid_components, all_actions, all_warnings)
  end.

(** The label of an average score. *)
Definition level_of_score (avg_score : Q) : string :=
  if Py.leb (35 # 10) avg_score then "critical"
  else if Py.leb (25 # 10) avg_score then "high"
  else if Py.leb (15 # 10) avg_score then "medium"
  else "low".

Definition recommendations_of (level : string) : list Recommendation :=
  if String.eqb level "critical"
  then [ ReviewImmediateReduction; CutLeverage; CloseCorrelated ]
  else if String.eqb level "high"
  then [ ReviewPositionSizes; StrengthenStopLoss; WatchMarket ]
  else if String.eqb level "medium" then [ KeepMonitoring ]
  else [ KeepStable ].

Definition _calculate_overall_risk_level (risk_components : list Component)
  : Overall :=
  let '(total_score, valid_components, all_actions, all_warnings) :=
    accumulate risk_components (0%Z, 0%Z, [], []) in
  if (valid_components =? 0)%Z then mkOverall "unknown" None [] [] []
  else
    let avg_score := inject_Z total_score / inject_Z valid_components in
    let risk_level := level_of_score avg_score in
    mkOverall risk_level (Some avg_score) all_actions all_warnings
      (recommendations_of risk_level).

Record MonitoringResult : Type := mkMonitoringResult {
  result_risk_level : string;
  actions_taken : list Action;
  result_warnings : list MonitorAlert;
  result_recommendations : list Recommendation
}.

(** [real_time_risk_monitoring] at time [now], with [regime_draw] the
    regime that [random.choice] picks in [_detect_regime_changes]. *)
Definition real_time_risk_monitoring (m : Monitor) (now : Z)
    (regime_draw : string) : MonitoringResult * Monitor :=
  let '(position_risks, rm1) := _monitor_position_risks (manager m) now in
  let correlation_risks := _monitor_correlation_risks rm1 in
  let '(regime_changes, previous') :=
    _detect_regime_changes (_previous_regime m) regime_draw in
  let liquidity_risks := _monitor_liquidity_risks rm1 in
  let leverage_risks := _monitor_leverage_risks rm1 in
  let overall_risk :=
    _calculate_overall_risk_level
      [ position_risks; correlation_risks; regime_changes; liquidity_risks;
        leverage_risks ] in
  let rm2 :=
    if Py.mem (level overall_risk) [ "high"; "critical" ]
    then _execute_automatic_responses rm1 (level overall_risk)
    else rm1 in
  (mkMonitoringResult (level overall_risk) (overall_actions overall_risk)
     (overall_warnings overall_risk) (recommendations overall_risk),
   mkMonitor rm2 previous').

End RiskMonitor.

(* ================================================================== *)
(** * modules/hybrid_portfolio_strategy.py: positions and rebalancing orders *)
(* ================================================================== *)

Module Rebalancer.
Import HybridPortfolioStrategy.

Definition set_current_positions (self : t)
    (spot futures : list (string * HeldPosition)) : t :=
  mkStrategy (spot_allocation self) (futures_allocation self)
    (arbitrage_threshold self) (rebalance_threshold self)
    (rebalance_interval_minutes self) (auto_transfer_enabled self)
    (max_leverage self) (max_position_size self) spot futures
    (last_rebalance self).

Definition set_last_rebalance (self : t) (now : Q) : t :=
  mkStrategy (spot_allocation self) (futures_allocation self)
    (arbitrage_threshold self) (rebalance_threshold self)
    (rebalance_interval_minutes self) (auto_transfer_enabled self)
    (max_leverage self) (max_position_size self)
    (current_positions_spot self) (current_positions_futures self) now.

(** [update_positions] *)
Definition update_positions (self : t) (symbol exchange_type : string)
    (position_data : HeldPosition) : t :=
  if String.eqb exchange_type "spot" then
    set_current_positions self
      (Py.set (current_positions_spot self) symbol position_data)
      (current_positions_futures self)
  else if String.eqb exchange_type "futures" then
    set_current_positions self (current_positions_spot self)
      (Py.set (current_positions_futures self) symbol position_data)
  else self.

(** [del d[k]] *)
Definition del {A} (d : list (string * A)) (k : string) : list (string * A) :=
  filter (fun kv => negb (String.eqb (fst kv) k)) d.

(** [remove_position] *)
Definition remove_position (self : t) (symbol exchange_type : string) : t :=
  if String.eqb exchange_type "spot" then
    set_current_positions self (del (current_positions_spot self) symbol)
      (current_positions_futures self)
  else if String.eqb exchange_type "futures" then
    set_current_positions self (current_positions_spot self)
      (del (current_positions_futures self) symbol)
  else self.

Definition initial_order (symbol exchange_type : string) (size confidence : Q)
    (priority : Z) : Signal :=
  mkSignal "initial_investment" symbol exchange_type "buy" size confidence
    None priority.

(** The spot loop of [_generate_initial_purchase_orders] over
    [primary_symbols]. *)
Fixpoint initial_spot_orders (primary_symbols : list string)
    (current_prices : list (string * Q)) (per_symbol_amount : Q)
    (orders : list Signal) : list Signal :=
  match primary_symbols with
  | [] => orders
  | symbol :: rest =>
      let current_price := Py.get_or current_prices symbol 0 in
      if Py.leb current_price 0
      then initial_spot_orders rest current_prices per_symbol_amount orders
      else if Py.ltb per_symbol_amount 10
      then initial_spot_orders rest current_prices per_symbol_amount orders
      else
        let safe_quantity :=
          _calculate_safe_quantity symbol per_symbol_amount current_price
            "spot" in
        initial_spot_orders rest current_prices per_symbol_amount
          (if Py.ltb 0 safe_quantity
           then (orders
                 ++ [ initial_order symbol "spot" safe_quantity (8 # 10) 1 ])%list
           else orders)
  end.

Definition primary_symbols : list string := [ "BTC/USDT"; "ETH/USDT" ].

(** [_generate_initial_purchase_orders]; [current_prices] is the
    ['current_prices'] entry of the portfolio state ([None]: absent). *)
Definition _generate_initial_purchase_orders (self : t)
    (portfolio_state : PortfolioState)
    (current_prices : option (list (string * Q))) : list Signal :=
  let total_balance := or_default (total_balance portfolio_state) 0 in
  let current_prices :=
    match current_prices with Some d => d | None => [] end in
  let spot_target_investment :=
    total_balance * (spot_allocation self * (8 # 10)) in
  let per_symbol_amount :=
    spot_target_investment / inject_Z (Z.of_nat (List.length primary_symbols)) in
  let orders :=
    initial_spot_orders primary_symbols current_prices per_symbol_amount [] in
  let futures_target_investment :=
    total_balance * (futures_allocation self * (3 # 10)) in
  if Py.leb 50 futures_target_investment then
    let btc_price := Py.get_or current_prices "BTC/USDT" 0 in
    if Py.ltb 0 btc_price then
      let futures_symbol := "BTC/USDT" in
      let safe_quantity :=
        _calculate_safe_quantity futures_symbol futures_target_investment
          btc_price "futures" in
      if Py.ltb 0 safe_quantity
      then (orders
            ++ [ initial_order futures_symbol "futures" safe_quantity
                   (7 # 10) 2 ])%list
      else orders
    else orders
  else orders.

(** [generate_rebalancing_orders] at time [now]: the orders and the
    strategy with its [last_rebalance] stamp. *)
Definition generate_rebalancing_orders (self : t)
    (portfolio_state : PortfolioState)
    (current_prices : option (list (string * Q))) (now : Q)
  : list Signal * t :=
  let total_balance := or_default (total_balance portfolio_state) 0 in
  let spot_usdt := or_default (spot_balance portfolio_state) 0 in
  let futures_usdt := or_default (futures_balance portfolio_state) 0 in
  if Py.ltb total_balance 100 then ([], self)
  else
    let orders :=
      if Py.ltb 0 spot_usdt || Py.ltb 0 futures_usdt then
        let current_spot_ratio := spot_usdt / total_balance in
        let current_futures_ratio := futures_usdt / total_balance in
        let spot_deviation :=
          Py.abs (current_spot_ratio - spot_allocation self) in
        let futures_deviation :=
          Py.abs (current_futures_ratio - futures_allocation self) in
        if Py.ltb (rebalance_threshold self) spot_deviation
           || Py.ltb (rebalance_threshold self) futures_deviation
        then _generate_initial_purchase_orders self portfolio_state
               current_prices
        else []
      else [] in
    match orders with
    | [] => ([], self)
    | _ => (orders, set_last_rebalance self now)
    end.

End Rebalancer.

(* ================================================================== *)
(** * modules/technical_analysis.py: the signal validator *)
(* ================================================================== *)

Module SignalValidator.

(** The [signals] dict handed to the validator. *)
Record SignalDict : Type := mkSignalDict {
  rsi_signal : option Q;
  macd_signal : option Q;
  bb_signal : option Q;
  stoch_signal : option Q;
  combined_signal : option Q
}.

(** The [market_data] dict handed to the validator. *)
Record ValidationData : Type := mkValidationData {
  volume : option Q;
  avg_volume : option Q;
  price_data : option (list Q);
  signal_history : option (list Q)
}.

(** One step of the loop over [signal_keys]: (consistency_count,
    total_checks) after looking at one key. *)
Definition check_key (direction : Z) (value : option Q) (acc : Z * Z)
  : Z * Z :=
  match value with
  | Some signal_value =>
      if Py.ltb (1 # 10) (Py.abs signal_value) then
        if ((0 <? direction)%Z && Py.ltb 0 signal_value)
           || ((direction <? 0)%Z && Py.ltb signal_value 0)
        then ((fst acc + 1)%Z, (snd acc + 1)%Z)
        else (fst acc, (snd acc + 1)%Z)
      else acc
  | None => acc
  end.

(** [_check_timeframe_consistency] *)
Definition _check_timeframe_consistency (signals : SignalDict) : Q :=
  let combined_signal :=
    match combined_signal signals with Some c => c | None => 0 end in
  if Py.ltb (Py.abs combined_signal) (1 # 10) then 0
  else
    let direction := if Py.ltb 0 combined_signal then 1%Z else (-1)%Z in
    let '(consistency_count, total_checks) :=
      check_key direction (stoch_signal signals)
        (check_key direction (bb_signal signals)
           (check_key direction (macd_signal signals)
              (check_key direction (rsi_signal signals) (0%Z, 0%Z)))) in
    if (total_checks =? 0)%Z then 0
    else inject_Z consistency_count / inject_Z total_checks.

(** [_check_volume_support] *)
Definition _check_volume_support (market_data : ValidationData) : Q :=
  match volume market_data with
  | None => 5 # 10
  | Some current_volume =>
      let avg_volume :=
        match avg_volume market_data with
        | Some a => a
        | None => current_volume
        end in
      if Py.leb avg_volume 0 then 5 # 10
      else
        let volume_ratio := current_volume / avg_volume in
        if Py.ltb (15 # 10) volume_ratio then 9 # 10
        else if Py.ltb (12 # 10) volume_ratio then 7 # 10
        else if Py.ltb (8 # 10) volume_ratio then 5 # 10
        else 2 # 10
  end.

(** A pandas/numpy statistic: a finite number, +inf, or NaN. *)
Inductive stat : Type :=
| Fin (q : Q)
| Inf
| NaN.

Definition stat_gt (s : stat) (q : Q) : bool :=
  match s with Fin x => Py.ltb q x | Inf => true | NaN => false end.
Definition stat_lt (s : stat) (q : Q) : bool :=
  match s with Fin x => Py.ltb x q | Inf => false | NaN => false end.

(** [abs((last - first) / first)] in numpy arithmetic: a zero divisor
    gives inf, or NaN for 0/0. *)
Definition trend_strength_of (first last : Q) : stat :=
  if Py.eqb first 0
  then if Py.eqb (last - first) 0 then NaN else Inf
  else Fin (Py.abs ((last - first) / first)).

(** The classification at the end of [_identify_market_regime]. *)
Definition regime_score (trend_strength volatility : stat) : Q :=
  if stat_gt trend_strength (5 # 100) && stat_lt volatility (3 # 100)
  then 9 # 10
  else if stat_gt trend_strength (2 # 100) && stat_lt volatility (5 # 100)
  then 7 # 10
  else if stat_gt volatility (5 # 100) then 3 # 10
  else 5 # 10.

(** [xs[-20:]] *)
Definition last20 (xs : list Q) : list Q := skipn (List.length xs - 20)%nat xs.

Section Validator.

(** [prices.pct_change().std()] of pandas, taken as given. *)
Variable pct_change_std : list Q -> stat.

(** [_identify_market_regime] *)
Definition _identify_market_regime (market_data : ValidationData) : Q :=
  match price_data market_data with
  | None => 5 # 10
  | Some price_data =>
      if (List.length price_data <? 20)%nat then 5 # 10
      else
        let prices := last20 price_data in
        let trend_strength :=
          trend_strength_of (hd 0 prices) (last prices 0) in
        let volatility := pct_change_std prices in
        regime_score trend_strength volatility
  end.

Record ValidationResult : Type := mkValidationResult {
  is_valid : bool;
  confidence : Q;
  consistency_score : Q;
  volume_confirmation : Q;
  market_regime_score : Q;
  final_strength : Q
}.

(** [validate_signal_strength] *)
Definition validate_signal_strength (signals : SignalDict)
    (market_data : ValidationData) : ValidationResult :=
  let consistency_score := _check_timeframe_consistency signals in
  let volume_confirmation := _check_volume_support market_data in
  let market_regime_score := _identify_market_regime market_data in
  let noise_filter_score :=
    TechnicalAnalyzer._apply_noise_filter
      (TechnicalAnalyzer.mkSignals (combined_signal signals))
      (TechnicalAnalyzer.mkMarketData (signal_history market_data)) in
  let final_strength :=
    consistency_score * (25 # 100) + volume_confirmation * (30 # 100)
    + market_regime_score * (20 # 100) + noise_filter_score * (25 # 100) in
  let is_valid := Py.ltb (25 # 100) final_strength in
  mkValidationResult is_valid final_strength consistency_score
    volume_confirmation market_regime_score final_strength.

End Validator.

End SignalValidator.

(* ================================================================== *)
(** * Facts about the Python primitives *)
(* ================================================================== *)

Module PyFacts.

Lemma ltb_lt (a b : Q) : Py.ltb a b = true <-> a < b.
Proof.
  unfold Py.ltb. rewrite negb_true_iff.
  split; intro H.
  - apply Qnot_le_lt. intro Hle. apply Qle_bool_iff in Hle. congruence.
  - destruct (Qle_bool b a) eqn:E; [|reflexivity].
    apply Qle_bool_iff in E. apply Qle_not_lt in E. contradiction.
Qed.

Lemma ltb_ge (a b : Q) : Py.ltb a b = false <-> b <= a.
Proof.
  unfold Py.ltb. rewrite negb_false_iff. apply Qle_bool_iff.
Qed.

Lemma leb_le (a b : Q) : Py.leb a b = true <-> a <= b.
Proof. apply Qle_bool_iff. Qed.

Lemma leb_gt (a b : Q) : Py.leb a b = false <-> b < a.
Proof.
  unfold Py.leb. split; intro H.
  - apply Qnot_le_lt. intro Hle. apply Qle_bool_iff in Hle. congruence.
  - destruct (Qle_bool a b) eqn:E; [|reflexivity].
    apply Qle_bool_iff in E. apply Qle_not_lt in E. contradiction.
Qed.

Lemma eqb_eq (a b : Q) : Py.eqb a b = true <-> a == b.
Proof. apply Qeq_bool_iff. Qed.

Lemma eqb_neq (a b : Q) : Py.eqb a b = false <-> ~ a == b.
Proof.
  unfold Py.eqb. split; intro H.
  - intro E. apply Qeq_bool_iff in E. congruence.
  - destruct (Qeq_bool a b) eqn:E; [|reflexivity].
    apply Qeq_bool_iff in E. contradiction.
Qed.

(** Comparisons see the rational, not its representation. *)
Lemma leb_proper (a a' b b' : Q) :
  a == a' -> b == b' -> Py.leb a b = Py.leb a' b'.
Proof.
  intros Ha Hb. destruct (Py.leb a' b') eqn:E.
  - apply leb_le. apply leb_le in E. rewrite Ha, Hb. exact E.
  - apply leb_gt. apply leb_gt in E. rewrite Ha, Hb. exact E.
Qed.

Lemma ltb_proper (a a' b b' : Q) :
  a == a' -> b == b' -> Py.ltb a b = Py.ltb a' b'.
Proof.
  intros Ha Hb. unfold Py.ltb. f_equal. apply leb_proper; assumption.
Qed.

Lemma eqb_proper (a a' b b' : Q) :
  a == a' -> b == b' -> Py.eqb a b = Py.eqb a' b'.
Proof.
  intros Ha Hb. destruct (Py.eqb a' b') eqn:E.
  - apply eqb_eq. apply eqb_eq in E. rewrite Ha, Hb. exact E.
  - apply eqb_neq. apply eqb_neq in E. rewrite Ha, Hb. exact E.
Qed.

Lemma min_proper (a a' b b' : Q) :
  a == a' -> b == b' -> Py.min a b == Py.min a' b'.
Proof.
  intros Ha Hb. unfold Py.min.
  rewrite (ltb_proper b b' a a' Hb Ha). destruct (Py.ltb b' a'); assumption.
Qed.

Lemma max_proper (a a' b b' : Q) :
  a == a' -> b == b' -> Py.max a b == Py.max a' b'.
Proof.
  intros Ha Hb. unfold Py.max.
  rewrite (ltb_proper a a' b b' Ha Hb). destruct (Py.ltb a' b'); assumption.
Qed.

Lemma min_le_r (a b : Q) : Py.min a b <= b.
Proof.
  unfold Py.min. destruct (Py.ltb b a) eqn:E.
  - apply Qle_refl.
  - apply ltb_ge in E. exact E.
Qed.

Lemma max_ge_l (a b : Q) : a <= Py.max a b.
Proof.
  unfold Py.max. destruct (Py.ltb a b) eqn:E.
  - apply ltb_lt in E. apply Qlt_le_weak. exact E.
  - apply Qle_refl.
Qed.

(** Clamping [max(lo, min(x, hi))] lands in [[lo, hi]]. *)
Lemma clamp_bounds (lo hi x : Q) :
  lo <= hi -> lo <= Py.max lo (Py.min x hi) /\ Py.max lo (Py.min x hi) <= hi.
Proof.
  intro Hlh. split; [apply max_ge_l|].
  unfold Py.max. destruct (Py.ltb lo (Py.min x hi)).
  - apply min_le_r.
  - exact Hlh.
Qed.

(** ** Rounding *)






End PyFacts.

(* ================================================================== *)
(** * Risk manager: Kelly fraction and the alert queue *)
(* ================================================================== *)

Module RiskManagerFacts.
Import RiskManager.

Lemma regime_win_loss_cases (r : string) :
  regime_win_loss r = (18 # 100, 9 # 100)
  \/ regime_win_loss r = (12 # 100, 12 # 100)
  \/ regime_win_loss r = (15 # 100, 8 # 100).
Proof.
  unfold regime_win_loss.
  destruct (String.eqb r "trending"); [now left|].
  destruct (String.eqb r "volatile"); [right; now left | right; now right].
Qed.

(** C5.  For every win rate in [0, 1] and every market-conditions dict
    (any regime label, or none), [_calculate_dynamic_kelly] returns a
    fraction in [0, 0.25].  For win_rate = 0.58 in the trending regime the
    unclamped Kelly value is (0.58*0.18 - 0.42*0.09)/0.18 = 0.37, and the
    function returns exactly 0.25. *)
Theorem dynamic_kelly_clamped :
  forall (symbol : string) (win_rate : Q) (market_conditions : MarketConditions),
    0 <= win_rate -> win_rate <= 1 ->
    (0 <= _calculate_dynamic_kelly symbol win_rate market_conditions
     /\ _calculate_dynamic_kelly symbol win_rate market_conditions <= 25 # 100)
    /\ kelly_formula (58 # 100) (18 # 100) (9 # 100) == 37 # 100
    /\ _calculate_dynamic_kelly symbol (58 # 100)
         (mkMarketConditions (volatility market_conditions) (Some "trending")
            (liquidity market_conditions)) = 25 # 100.
Proof.
  intros symbol w mc _ _. split; [|split; reflexivity].
  unfold _calculate_dynamic_kelly.
  destruct (regime mc) as [r|]; simpl; [|split; discriminate].
  destruct (regime_win_loss_cases r) as [E|[E|E]]; rewrite E; simpl;
    apply PyFacts.clamp_bounds; discriminate.
Qed.

Lemma dynamic_kelly_clamped_witness :
  0 <= 1 /\ 1 <= 1
  /\ (0 <= _calculate_dynamic_kelly "BTC/USDT" 1 Samples.trending_market
      /\ _calculate_dynamic_kelly "BTC/USDT" 1 Samples.trending_market
         <= 25 # 100)
  /\ kelly_formula (58 # 100) (18 # 100) (9 # 100) == 37 # 100
  /\ _calculate_dynamic_kelly "BTC/USDT" (58 # 100) Samples.trending_market
     = 25 # 100.
Proof.
  split; [discriminate|]. split; [discriminate|].
  apply (dynamic_kelly_clamped "BTC/USDT" 1 Samples.trending_market);
    discriminate.
Defined.

(** C8.  [get_risk_alerts] returns exactly the queued alerts and leaves the
    queue empty, so an immediate second call returns the empty list; nothing
    else of the risk state changes. *)
Theorem get_risk_alerts_drains :
  forall rm : t,
    fst (get_risk_alerts rm) = risk_alerts rm
    /\ risk_alerts (snd (get_risk_alerts rm)) = []
    /\ fst (get_risk_alerts (snd (get_risk_alerts rm))) = []
    /\ positions (snd (get_risk_alerts rm)) = positions rm.
Proof.
  intro rm. repeat split.
Qed.

(** ** The critical-level response *)

Lemma pnl_pct_set_size (p : Position) (s : Q) :
  pnl_pct (set_size p s) = pnl_pct p.
Proof. reflexivity. Qed.

Lemma losing_set_size (p : Position) (s : Q) :
  losing (set_size p s) = losing p.
Proof. reflexivity. Qed.

Lemma pnl_pct_defined (p : Position) :
  ~ price p == 0 -> exists pnl, pnl_pct p = Some pnl.
Proof.
  intro Hp. unfold pnl_pct, Py.div.
  apply PyFacts.eqb_neq in Hp.
  destruct (String.eqb (side p) "buy"); rewrite Hp; eexists; reflexivity.
Qed.

Lemma reduce_position_defined (ratio : Q) (p : Position) :
  ~ price p == 0 ->
  reduce_position ratio p
  = Some (if losing p then set_size p (size p * (1 - ratio)) else p).
Proof.
  intro Hp. destruct (pnl_pct_defined p Hp) as [pnl E].
  unfold reduce_position, losing. rewrite E. simpl.
  destruct (Py.ltb pnl (- (5 # 100))); reflexivity.
Qed.

Lemma reduce_loop_scales (ratio : Q) (ps : list (string * Position)) :
  entry_prices_nonzero ps ->
  reduce_loop ratio ps = scale_losing (1 - ratio) ps.
Proof.
  induction 1 as [|[s p] ps Hp _ IH]; simpl; [reflexivity|].
  rewrite (reduce_position_defined ratio p Hp), IH. reflexivity.
Qed.

Lemma scale_losing_nonzero (factor : Q) (ps : list (string * Position)) :
  entry_prices_nonzero ps -> entry_prices_nonzero (scale_losing factor ps).
Proof.
  induction 1 as [|[s p] ps Hp _ IH]; simpl; constructor; try exact IH.
  simpl. destruct (losing p); exact Hp.
Qed.

Lemma scale_losing_twice (f g : Q) (ps : list (string * Position)) :
  scale_losing g (scale_losing f ps)
  = map (fun kv =>
           (fst kv,
            if losing (snd kv)
            then set_size (snd kv) (size (snd kv) * f * g)
            else snd kv)) ps.
Proof.
  unfold scale_losing. rewrite map_map. apply map_ext.
  intros [s p]. simpl. destruct (losing p) eqn:E.
  - rewrite losing_set_size, E. reflexivity.
  - rewrite E. reflexivity.
Qed.

Lemma pnl_pct_zero_entry (p : Position) :
  price p == 0 -> pnl_pct p = None.
Proof.
  intro Hp. apply PyFacts.eqb_eq in Hp. unfold pnl_pct, Py.div.
  destruct (String.eqb (side p) "buy"); rewrite Hp; reflexivity.
Qed.

(** The positions ahead of the first zero entry price all have a nonzero
    one, and the position that follows them, if any, has entry price 0. *)
Lemma reached_spec (ps : list (string * Position)) :
  entry_prices_nonzero (firstn (reached ps) ps)
  /\ match nth_error ps (reached ps) with
     | Some kv => price (snd kv) == 0
     | None => reached ps = List.length ps
     end.
Proof.
  induction ps as [|[s p] ps [IH1 IH2]]; simpl.
  - split; [constructor | reflexivity].
  - destruct (Py.eqb (price p) 0) eqn:E; simpl.
    + split; [constructor | apply PyFacts.eqb_eq; exact E].
    + split.
      * constructor; [apply PyFacts.eqb_neq; exact E | exact IH1].
      * destruct (nth_error ps (reached ps)); [exact IH2 | now f_equal].
Qed.

(** One run of the loop: the positions reached are scaled when losing, the
    one that raises and those behind it are left as they were. *)
Lemma reduce_loop_reached (ratio : Q) (ps : list (string * Position)) :
  reduce_loop ratio ps
  = (scale_losing (1 - ratio) (firstn (reached ps) ps)
     ++ skipn (reached ps) ps)%list.
Proof.
  induction ps as [|[s p] ps IH]; simpl; [reflexivity|].
  destruct (Py.eqb (price p) 0) eqn:E.
  - apply PyFacts.eqb_eq in E. unfold reduce_position.
    rewrite (pnl_pct_zero_entry p E). reflexivity.
  - apply PyFacts.eqb_neq in E.
    rewrite (reduce_position_defined ratio p E), IH. reflexivity.
Qed.

(** A run does not move the place where the loop stops. *)
Lemma reached_reduce_loop (ratio : Q) (ps : list (string * Position)) :
  reached (reduce_loop ratio ps) = reached ps.
Proof.
  induction ps as [|[s p] ps IH]; simpl; [reflexivity|].
  destruct (Py.eqb (price p) 0) eqn:E.
  - unfold reduce_position.
    rewrite (pnl_pct_zero_entry p (proj1 (PyFacts.eqb_eq _ _) E)).
    simpl. rewrite E. reflexivity.
  - rewrite (reduce_position_defined ratio p (proj1 (PyFacts.eqb_neq _ _) E)).
    simpl. destruct (losing p); simpl; rewrite E, IH; reflexivity.
Qed.

Lemma reduce_loop_firstn_skipn (ratio : Q) (ps : list (string * Position)) :
  firstn (reached ps) (reduce_loop ratio ps)
  = scale_losing (1 - ratio) (firstn (reached ps) ps)
  /\ skipn (reached ps) (reduce_loop ratio ps) = skipn (reached ps) ps.
Proof.
  induction ps as [|[s p] ps [IH1 IH2]]; simpl; [split; reflexivity|].
  destruct (Py.eqb (price p) 0) eqn:E.
  - unfold reduce_position.
    rewrite (pnl_pct_zero_entry p (proj1 (PyFacts.eqb_eq _ _) E)).
    split; reflexivity.
  - rewrite (reduce_position_defined ratio p (proj1 (PyFacts.eqb_neq _ _) E)).
    simpl. rewrite IH1, IH2. split; reflexivity.
Qed.

(** C1 (as the code behaves).  Let n be the number of positions ahead of
    the first one with a zero entry price (all of them when there is none):
    these are the positions the loop reaches before the division raises.
    One critical-level response multiplies the size of every losing position
    among the first n by (1 - 0.5) and leaves every other position as it
    was; a second response in that state multiplies the same positions by
    (1 - 0.5) once more, so the reduction compounds to 0.25.  Positions that
    are not losing, and those from the first zero entry price on, keep the
    size they had after the first response. *)
Theorem critical_response_compounds :
  forall rm : t,
    let once := _execute_automatic_responses rm "critical" in
    let twice := _execute_automatic_responses once "critical" in
    let n := reached (positions rm) in
    Forall (fun kv => ~ price (snd kv) == 0) (firstn n (positions rm))
    /\ match nth_error (positions rm) n with
       | Some kv => price (snd kv) == 0
       | None => n = List.length (positions rm)
       end
    /\ positions once
       = (scale_losing (1 - (5 # 10)) (firstn n (positions rm))
          ++ skipn n (positions rm))%list
    /\ positions twice
       = (map (fun kv =>
                 (fst kv,
                  if losing (snd kv)
                  then set_size (snd kv)
                         (size (snd kv) * (1 - (5 # 10)) * (1 - (5 # 10)))
                  else snd kv))
            (firstn n (positions rm))
          ++ skipn n (positions rm))%list.
Proof.
  intro rm. cbv zeta.
  change (_execute_automatic_responses rm "critical")
    with (_reduce_risky_positions rm (5 # 10)).
  change (_execute_automatic_responses (_reduce_risky_positions rm (5 # 10))
            "critical")
    with (_reduce_risky_positions (_reduce_risky_positions rm (5 # 10))
            (5 # 10)).
  unfold _reduce_risky_positions. simpl positions.
  destruct (reached_spec (positions rm)) as [Hnz Hnth].
  split; [exact Hnz|]. split; [exact Hnth|].
  split; [apply reduce_loop_reached|].
  rewrite (reduce_loop_reached _ (reduce_loop _ _)).
  rewrite reached_reduce_loop.
  destruct (reduce_loop_firstn_skipn (5 # 10) (positions rm)) as [-> ->].
  rewrite scale_losing_twice. reflexivity.
Qed.

(** In the sample state the XRP position has entry price 0: two responses
    quarter the BTC position ahead of it, and the ADA position behind it,
    20% under water, is never reduced. *)
Lemma critical_response_compounds_witness :
  positions (_execute_automatic_responses
               (_execute_automatic_responses Samples.zero_entry_state
                  "critical")
               "critical")
  = [ ("BTC/USDT",
       set_size Samples.losing_long (1 * (1 - (5 # 10)) * (1 - (5 # 10))));
      ("XRP/USDT", Samples.zero_entry);
      ("ADA/USDT", Samples.losing_ada) ].
Proof.
  exact (proj2 (proj2 (proj2
           (critical_response_compounds Samples.zero_entry_state)))).
Defined.

(** When no entry price is zero the loop reaches every position: each
    response scales all the losing ones. *)
Corollary critical_response_scales_all_losing :
  forall rm : t,
    entry_prices_nonzero (positions rm) ->
    positions (_execute_automatic_responses rm "critical")
    = scale_losing (1 - (5 # 10)) (positions rm)
    /\ positions (_execute_automatic_responses
                    (_execute_automatic_responses rm "critical") "critical")
       = map (fun kv =>
                (fst kv,
                 if losing (snd kv)
                 then set_size (snd kv)
                        (size (snd kv) * (1 - (5 # 10)) * (1 - (5 # 10)))
                 else snd kv))
           (positions rm).
Proof.
  intros rm Hnz.
  change (_execute_automatic_responses rm "critical")
    with (_reduce_risky_positions rm (5 # 10)).
  change (_execute_automatic_responses (_reduce_risky_positions rm (5 # 10))
            "critical")
    with (_reduce_risky_positions (_reduce_risky_positions rm (5 # 10))
            (5 # 10)).
  unfold _reduce_risky_positions. simpl positions.
  rewrite (reduce_loop_scales _ _ Hnz). split; [reflexivity|].
  rewrite (reduce_loop_scales _ _ (scale_losing_nonzero _ _ Hnz)).
  apply scale_losing_twice.
Qed.

(** The claim of C1 as the specification words it fails: after a second
    critical response the losing BTC position of the sample state has size
    1/4, not the 1/2 it had after the first. *)
Lemma critical_response_not_idempotent :
  exists p1 p2 : Position,
    Py.get (positions (_execute_automatic_responses Samples.risk_state
                         "critical")) "BTC/USDT" = Some p1
    /\ Py.get (positions (_execute_automatic_responses
                            (_execute_automatic_responses Samples.risk_state
                               "critical") "critical")) "BTC/USDT" = Some p2
    /\ size p1 == 1 # 2
    /\ size p2 == 1 # 4
    /\ ~ size p2 == size p1.
Proof.
  eexists. eexists. split; [reflexivity|]. split; [reflexivity|].
  simpl. repeat split; discriminate.
Qed.

(** ** Adaptive position sizing *)

Lemma recent_win_rate_proper (symbol : string) (a a' : Q) :
  a == a' ->
  _calculate_recent_win_rate symbol a == _calculate_recent_win_rate symbol a'.
Proof.
  intro H. unfold _calculate_recent_win_rate.
  apply PyFacts.max_proper; [reflexivity|].
  apply PyFacts.min_proper; [reflexivity|].
  rewrite H. reflexivity.
Qed.

Lemma dynamic_kelly_proper (symbol : string) (w w' : Q) (mc : MarketConditions) :
  w == w' ->
  _calculate_dynamic_kelly symbol w mc == _calculate_dynamic_kelly symbol w' mc.
Proof.
  intro H. unfold _calculate_dynamic_kelly.
  destruct (regime mc) as [r|]; simpl; [|reflexivity].
  destruct (regime_win_loss r) as [avg_win avg_loss].
  destruct (Py.leb avg_win 0); simpl; [reflexivity|].
  apply PyFacts.max_proper; [reflexivity|].
  apply PyFacts.min_proper; [|reflexivity].
  unfold kelly_formula. rewrite H. reflexivity.
Qed.

Lemma apply_safety_limits_proper (rm : t) (s s' balance price : Q) :
  s == s' ->
  _apply_safety_limits rm s balance price
  == _apply_safety_limits rm s' balance price.
Proof.
  intro H. unfold _apply_safety_limits.
  assert (Hv : s * price == s' * price) by (rewrite H; reflexivity).
  rewrite (PyFacts.ltb_proper (balance * max_position_size rm)
             (balance * max_position_size rm) _ _ (Qeq_refl _) Hv).
  rewrite (PyFacts.ltb_proper (balance * risk_per_trade rm)
             (balance * risk_per_trade rm) _ _ (Qeq_refl _) Hv).
  rewrite (PyFacts.ltb_proper _ _ 10 10 Hv (Qeq_refl _)).
  unfold Py.div.
  destruct (Py.ltb (balance * max_position_size rm) (s' * price));
    destruct (Py.ltb (balance * risk_per_trade rm) (s' * price));
    destruct (Py.ltb (s' * price) 10);
    destruct (Py.eqb price 0); simpl; try reflexivity; exact H.
Qed.

(** C2 (as the code behaves).  The size is a function of the arguments,
    the positions state and the jitter that [random.uniform(-0.05, 0.05)]
    returns inside [_calculate_recent_win_rate]: two calls with identical
    arguments and state that draw the same jitter return the same size. *)
Theorem adaptive_position_sizing_deterministic_given_draw :
  forall (rm : t) (symbol : string)
         (signal_strength current_balance current_price : Q)
         (market_conditions : MarketConditions) (draw1 draw2 : Q),
    draw1 == draw2 ->
    adaptive_position_sizing rm symbol signal_strength current_balance
      current_price market_conditions draw1
    == adaptive_position_sizing rm symbol signal_strength current_balance
         current_price market_conditions draw2.
Proof.
  intros rm symbol strength balance price mc d1 d2 H.
  unfold adaptive_position_sizing.
  destruct (volatility mc) as [v|]; [|reflexivity].
  destruct (regime mc) as [r|] eqn:Er; [|reflexivity].
  destruct (liquidity mc) as [l|]; [|reflexivity].
  cbn [Py.item Py.bind Py.ret Py.catch].
  apply apply_safety_limits_proper.
  rewrite (dynamic_kelly_proper symbol _ _ mc
             (recent_win_rate_proper symbol d1 d2 H)).
  reflexivity.
Qed.

Lemma adaptive_position_sizing_deterministic_given_draw_witness :
  (1 # 100) == (2 # 200)
  /\ adaptive_position_sizing Samples.risk_state "SOL/USDT" 1 100000 1000
       Samples.volatile_market (1 # 100)
     == adaptive_position_sizing Samples.risk_state "SOL/USDT" 1 100000 1000
          Samples.volatile_market (2 # 200).
Proof.
  split; [reflexivity|].
  apply (adaptive_position_sizing_deterministic_given_draw
           Samples.risk_state "SOL/USDT" 1 100000 1000
           Samples.volatile_market (1 # 100) (2 # 200)).
  reflexivity.
Defined.

(** The claim of C2 as the specification words it fails: with identical
    arguments and an untouched (empty) positions state, the jitter values 0
    and 0.05, both in the range of [random.uniform(-0.05, 0.05)], give the
    sizes 0.024 and 0.084. *)
Lemma adaptive_position_sizing_not_deterministic :
  - (5 # 100) <= 0 /\ 0 <= 5 # 100
  /\ adaptive_position_sizing init "DOGE/USDT" 1 100000 1000
       Samples.volatile_market 0 == 24 # 1000
  /\ adaptive_position_sizing init "DOGE/USDT" 1 100000 1000
       Samples.volatile_market (5 # 100) == 84 # 1000
  /\ ~ adaptive_position_sizing init "DOGE/USDT" 1 100000 1000
         Samples.volatile_market 0
       == adaptive_position_sizing init "DOGE/USDT" 1 100000 1000
            Samples.volatile_market (5 # 100).
Proof.
  repeat split; try discriminate; vm_compute; try reflexivity; discriminate.
Qed.

End RiskManagerFacts.

(* ================================================================== *)
(** * Portfolio strategy: rebalancing gate and signal ordering *)
(* ================================================================== *)

Module StrategyFacts.
Import HybridPortfolioStrategy.

(** C9.  A portfolio whose total balance (0 when the key is absent) is at
    most 100 never needs rebalancing, whatever the allocation, the strategy
    configuration and the time elapsed since the last rebalance. *)
Theorem small_balance_never_rebalances :
  forall (self : t) (portfolio_state : PortfolioState) (now : Q),
    or_default (total_balance portfolio_state) 0 <= 100 ->
    check_rebalancing_needed self portfolio_state now = false.
Proof.
  intros self ps now H. unfold check_rebalancing_needed.
  apply PyFacts.leb_le in H. rewrite H. reflexivity.
Qed.

Lemma small_balance_never_rebalances_witness :
  or_default (total_balance
                (mkPortfolioState (Some 100) (Some 95) (Some 5) None None)) 0
    <= 100
  /\ check_rebalancing_needed (init 0)
       (mkPortfolioState (Some 100) (Some 95) (Some 5) None None) 1000000
     = false.
Proof.
  split; [discriminate|].
  apply (small_balance_never_rebalances (init 0)
           (mkPortfolioState (Some 100) (Some 95) (Some 5) None None) 1000000).
  discriminate.
Defined.

(** ** Sorting by priority *)

Section SortAsc.
Context {A : Type} (key : A -> Z).

Local Notation "'by_key'" := (fun a b : A => (key a <= key b)%Z).
Local Notation "'before'" := (fun y x : A => (key y <? key x)%Z).

Lemma insert_hd (a x : A) (l : list A) :
  by_key a x -> HdRel by_key a l -> HdRel by_key a (Py.insert before x l).
Proof.
  intros Hax Hal. destruct l as [|y l]; simpl.
  - constructor. exact Hax.
  - destruct (key y <? key x)%Z; constructor.
    + apply HdRel_inv in Hal. exact Hal.
    + exact Hax.
Qed.

Lemma insert_sorted (x : A) (l : list A) :
  Sorted by_key l -> Sorted by_key (Py.insert before x l).
Proof.
  induction 1 as [|y l Hl IH Hy]; simpl.
  - repeat constructor.
  - destruct (key y <? key x)%Z eqn:E.
    + constructor; [exact IH|].
      apply insert_hd; [|exact Hy].
      apply Z.ltb_lt in E. lia.
    + apply Z.ltb_ge in E.
      constructor; [constructor; assumption|].
      constructor. exact E.
Qed.

Lemma sort_asc_sorted (l : list A) : Sorted by_key (Py.sort_asc key l).
Proof.
  unfold Py.sort_asc, Py.sort_with.
  induction l as [|x l IH]; simpl; [constructor|].
  apply insert_sorted. exact IH.
Qed.

Lemma sort_asc_strongly_sorted (l : list A) :
  StronglySorted by_key (Py.sort_asc key l).
Proof.
  apply Sorted_StronglySorted; [|apply sort_asc_sorted].
  intros a b c. simpl. lia.
Qed.

Lemma firstn_strongly_sorted (n : nat) (l : list A) :
  StronglySorted by_key l -> StronglySorted by_key (firstn n l).
Proof.
  intro H. revert n. induction H as [|a l Hl IH Ha]; intro n.
  - rewrite firstn_nil. constructor.
  - destruct n as [|n]; simpl; constructor; [apply IH|].
    rewrite Forall_forall in *. intros x Hx.
    apply Ha. rewrite <- (firstn_skipn n l). apply in_or_app. left. exact Hx.
Qed.

End SortAsc.

(** C7.  Whatever the opportunities, the portfolio state and the market
    data, the list returned by [generate_portfolio_signals] is in ascending
    priority order (every signal's priority is at most that of every later
    one) and holds at most 10 signals. *)
Theorem generate_portfolio_signals_sorted_capped :
  forall (self : t) (opportunities : Opportunities)
         (portfolio_state : PortfolioState)
         (market_data : option (list (string * SymbolData))),
    StronglySorted (fun a b => (priority a <= priority b)%Z)
      (generate_portfolio_signals self opportunities portfolio_state
         market_data)
    /\ (List.length
          (generate_portfolio_signals self opportunities portfolio_state
             market_data) <= 10)%nat.
Proof.
  intros self opps ps md. unfold generate_portfolio_signals.
  destruct (Py.ltb _ 5 && Py.ltb _ 5).
  - split; [constructor | simpl; lia].
  - destruct (collect_signals _ _ _ _) as [signals|];
      cbn [Py.catch Py.bind Py.ret].
    + split.
      * apply firstn_strongly_sorted. apply sort_asc_strongly_sorted.
      * apply firstn_le_length.
    + split; [constructor | simpl; lia].
Qed.

(** ** Arbitrage detection *)

Lemma arbitrage_of_defined (self : t) (symbol : string) (spot futures : Q) :
  ~ arbitrage_threshold self == 0 ->
  arbitrage_of self symbol spot futures
  = Some
      (if Py.ltb (arbitrage_threshold self) (Py.abs ((futures - spot) / spot))
       then Some
              (Arbitrage.mk symbol ((futures - spot) / spot) spot futures
                 (if Py.ltb 0 ((futures - spot) / spot)
                  then "long_spot_short_futures"
                  else "short_spot_long_futures")
                 (Py.abs ((futures - spot) / spot))
                 (Py.min (Py.abs ((futures - spot) / spot)
                          / arbitrage_threshold self) 1))
       else None).
Proof.
  intro Hthr. apply PyFacts.eqb_neq in Hthr.
  unfold arbitrage_of, Py.div. rewrite Hthr.
  destruct (Py.ltb _ _); reflexivity.
Qed.

Lemma arbitrage_add_opt_other {A} (add : Opportunities -> A -> Opportunities)
    (o : Opportunities) (x : option A) :
  (forall o' a, arbitrage (add o' a) = arbitrage o') ->
  arbitrage (add_opt add o x) = arbitrage o.
Proof.
  intro H. destruct x; simpl; [apply H | reflexivity].
Qed.

Lemma analyze_symbol_arbitrage (self : t) (symbol : string) (data : SymbolData)
    (o : Opportunities) (l0 : list Arbitrage.t) :
  ~ arbitrage_threshold self == 0 ->
  arbitrage o = Some l0 ->
  exists o',
    analyze_symbol self symbol data o = Some o'
    /\ arbitrage o'
       = Some (l0 ++ arbitrage_contribution self symbol data)%list.
Proof.
  intros Hthr Ho. unfold analyze_symbol, arbitrage_contribution.
  destruct (prices_of data) as [spot futures].
  destruct (Py.leb spot 0 || Py.leb futures 0).
  - exists o. split; [reflexivity|]. rewrite app_nil_r. exact Ho.
  - rewrite (arbitrage_of_defined self symbol spot futures Hthr).
    cbn [Py.bind Py.ret]. eexists. split; [reflexivity|].
    rewrite !arbitrage_add_opt_other by reflexivity.
    destruct (Py.ltb _ _); simpl.
    + rewrite Ho. reflexivity.
    + rewrite app_nil_r. exact Ho.
Qed.

Lemma analyze_loop_arbitrage (self : t) :
  ~ arbitrage_threshold self == 0 ->
  forall (market_data : list (string * SymbolData)) (o : Opportunities)
         (l0 : list Arbitrage.t),
    arbitrage o = Some l0 ->
    exists o',
      analyze_loop self market_data o = Some o'
      /\ arbitrage o'
         = Some (l0 ++ flat_map
                         (fun kv => arbitrage_contribution self (fst kv) (snd kv))
                         market_data)%list.
Proof.
  intros Hthr md. induction md as [|[symbol data] md IH]; intros o l0 Ho.
  - exists o. split; [reflexivity|]. simpl. rewrite app_nil_r. exact Ho.
  - destruct (analyze_symbol_arbitrage self symbol data o l0 Hthr Ho)
      as [o1 [E1 A1]].
    destruct (IH o1 _ A1) as [o2 [E2 A2]].
    exists o2. split.
    + simpl. rewrite E1. exact E2.
    + rewrite A2. simpl. rewrite app_assoc. reflexivity.
Qed.

Lemma analyze_market_opportunity_arbitrage (self : t)
    (market_data : list (string * SymbolData)) :
  ~ arbitrage_threshold self == 0 ->
  arbitrage (analyze_market_opportunity self market_data)
  = Some (flat_map (fun kv => arbitrage_contribution self (fst kv) (snd kv))
            market_data).
Proof.
  intro Hthr.
  destruct (analyze_loop_arbitrage self Hthr market_data no_opportunities []
              eq_refl) as [o [E A]].
  unfold analyze_market_opportunity. rewrite E. exact A.
Qed.

Lemma contribution_symbol (self : t) (symbol : string) (data : SymbolData)
    (a : Arbitrage.t) :
  In a (arbitrage_contribution self symbol data) -> Arbitrage.symbol a = symbol.
Proof.
  unfold arbitrage_contribution, arbitrage_of.
  destruct (prices_of data) as [spot futures].
  destruct (Py.leb spot 0 || Py.leb futures 0); [intros []|].
  destruct (Py.ltb _ _); [|intros []].
  destruct (Py.div _ _); [|intros []].
  intros [<-|[]]. reflexivity.
Qed.

Lemma dict_entry_unique {A} (d : list (string * A)) (k : string) (v v' : A) :
  NoDup (map fst d) -> In (k, v) d -> In (k, v') d -> v = v'.
Proof.
  induction d as [|[k0 v0] d IH]; simpl; intros Hnd H1 H2; [contradiction|].
  inversion Hnd as [|? ? Hnotin Hnd']; subst.
  destruct H1 as [H1|H1], H2 as [H2|H2].
  - congruence.
  - inversion H1; subst. exfalso. apply Hnotin.
    apply (in_map fst) in H2. exact H2.
  - inversion H2; subst. exfalso. apply Hnotin.
    apply (in_map fst) in H1. exact H1.
  - apply IH; assumption.
Qed.

Lemma prices_of_numbers (data : SymbolData) (spot futures : Q) :
  spot_ticker_last data = Some (VNum spot) ->
  futures_ticker_last data = Some (VNum futures) ->
  prices_of data = (spot, futures).
Proof.
  intros Hs Hf. unfold prices_of. rewrite Hs, Hf. reflexivity.
Qed.

Lemma contribution_of_quote (self : t) (symbol : string) (data : SymbolData)
    (spot futures : Q) :
  ~ arbitrage_threshold self == 0 ->
  spot_ticker_last data = Some (VNum spot) ->
  futures_ticker_last data = Some (VNum futures) ->
  0 < spot -> 0 < futures ->
  arbitrage_contribution self symbol data
  = if Py.ltb (arbitrage_threshold self) (Py.abs ((futures - spot) / spot))
    then [ Arbitrage.mk symbol ((futures - spot) / spot) spot futures
             (if Py.ltb 0 ((futures - spot) / spot)
              then "long_spot_short_futures"
              else "short_spot_long_futures")
             (Py.abs ((futures - spot) / spot))
             (Py.min (Py.abs ((futures - spot) / spot)
                      / arbitrage_threshold self) 1) ]
    else [].
Proof.
  intros Hthr Hs Hf Hsp Hfp. unfold arbitrage_contribution.
  rewrite (prices_of_numbers data spot futures Hs Hf).
  apply PyFacts.leb_gt in Hsp, Hfp. rewrite Hsp, Hfp. simpl orb.
  rewrite (arbitrage_of_defined self symbol spot futures Hthr).
  destruct (Py.ltb _ _); reflexivity.
Qed.

(** C6.  With a nonzero configured threshold, for every entry of the market
    data whose spot and futures prices are positive numbers, an arbitrage
    opportunity for that symbol is recorded exactly when
    |(futures - spot)/spot| exceeds the threshold; the record carries
    confidence min(|premium|/threshold, 1.0) and has direction
    long_spot_short_futures iff premium > 0 (short_spot_long_futures
    otherwise).  With spot 100, futures 100.06 and threshold 0.0005 the
    single record has premium 0.0006, confidence 1.0 and direction
    long_spot_short_futures. *)
Theorem arbitrage_recorded_iff_premium_exceeds :
  forall (self : t) (market_data : list (string * SymbolData))
         (symbol : string) (data : SymbolData) (spot futures : Q),
    ~ arbitrage_threshold self == 0 ->
    NoDup (map fst market_data) ->
    In (symbol, data) market_data ->
    spot_ticker_last data = Some (VNum spot) ->
    futures_ticker_last data = Some (VNum futures) ->
    0 < spot -> 0 < futures ->
    let premium := (futures - spot) / spot in
    let recorded :=
      list_or_empty (arbitrage (analyze_market_opportunity self market_data)) in
    ((exists a, In a recorded /\ Arbitrage.symbol a = symbol)
     <-> arbitrage_threshold self < Qabs premium)
    /\ (forall a, In a recorded -> Arbitrage.symbol a = symbol ->
          Arbitrage.premium a = premium
          /\ Arbitrage.confidence a
             = Py.min (Qabs premium / arbitrage_threshold self) 1
          /\ (Arbitrage.opportunity_type a = "long_spot_short_futures"
              <-> 0 < premium)
          /\ (Arbitrage.opportunity_type a = "short_spot_long_futures"
              <-> ~ 0 < premium))
    /\ (exists a,
          arbitrage (analyze_market_opportunity (init 0)
                       [("BTC/USDT", Samples.btc_quote)]) = Some [a]
          /\ Arbitrage.premium a == 6 # 10000
          /\ Arbitrage.confidence a == 1
          /\ Arbitrage.opportunity_type a = "long_spot_short_futures").
Proof.
  intros self md symbol data spot futures Hthr Hnd Hin Hs Hf Hsp Hfp
         premium recorded.
  assert (Hrec : forall a,
             In a recorded <->
             exists kv, In kv md
                        /\ In a (arbitrage_contribution self (fst kv) (snd kv))).
  { intro a. unfold recorded.
    rewrite (analyze_market_opportunity_arbitrage self md Hthr). simpl.
    apply in_flat_map. }
  pose proof (contribution_of_quote self symbol data spot futures
                Hthr Hs Hf Hsp Hfp) as Hc.
  fold premium in Hc.
  assert (Hmine : forall a,
             In a recorded -> Arbitrage.symbol a = symbol ->
             In a (arbitrage_contribution self symbol data)).
  { intros a Ha Hsym. apply Hrec in Ha. destruct Ha as [[k d] [Hkd Hak]].
    simpl in Hak. pose proof (contribution_symbol _ _ _ _ Hak) as Hk.
    rewrite Hsym in Hk. subst k.
    rewrite (dict_entry_unique md symbol data d Hnd Hin Hkd). exact Hak. }
  split; [|split].
  - split.
    + intros [a [Ha Hsym]]. pose proof (Hmine a Ha Hsym) as Hm.
      rewrite Hc in Hm.
      destruct (Py.ltb (arbitrage_threshold self) (Py.abs premium)) eqn:E;
        [|contradiction].
      apply PyFacts.ltb_lt in E. exact E.
    + intro Hlt. apply PyFacts.ltb_lt in Hlt.
      unfold Py.abs in Hc. rewrite Hlt in Hc.
      eexists. split.
      * apply Hrec. exists (symbol, data). split; [exact Hin|].
        simpl. rewrite Hc. left. reflexivity.
      * reflexivity.
  - intros a Ha Hsym. pose proof (Hmine a Ha Hsym) as Hm.
    rewrite Hc in Hm.
    destruct (Py.ltb (arbitrage_threshold self) (Py.abs premium));
      [|contradiction].
    destruct Hm as [<-|[]]. simpl.
    split; [reflexivity|]. split; [reflexivity|].
    destruct (Py.ltb 0 premium) eqn:E.
    + apply PyFacts.ltb_lt in E. split; split; intro H;
        try reflexivity; try exact E; try discriminate; contradiction.
    + apply PyFacts.ltb_ge in E. split; split; intro H;
        try reflexivity; try discriminate.
      * exfalso. apply (Qlt_not_le _ _ H). exact E.
      * apply Qle_not_lt. exact E.
  - eexists. split; [vm_compute; reflexivity|].
    repeat split; reflexivity.
Qed.

Lemma arbitrage_recorded_iff_premium_exceeds_witness :
  exists a,
    arbitrage (analyze_market_opportunity (init 0)
                 [("BTC/USDT", Samples.btc_quote)]) = Some [a]
    /\ Arbitrage.premium a == 6 # 10000
    /\ Arbitrage.confidence a == 1
    /\ Arbitrage.opportunity_type a = "long_spot_short_futures".
Proof.
  refine (proj2 (proj2
    (arbitrage_recorded_iff_premium_exceeds (init 0)
       [("BTC/USDT", Samples.btc_quote)] "BTC/USDT" Samples.btc_quote
       100 (10006 # 100) _ _ _ _ _ _ _))).
  - discriminate.
  - repeat constructor. simpl. tauto.
  - left. reflexivity.
  - reflexivity.
  - reflexivity.
  - reflexivity.
  - reflexivity.
Defined.

(** ** Safe quantity *)





(** The scenarios of the specification: $3 at 50000 is below the $5 floor;
    a 60/40 split against a 40/60 target triggers rebalancing. *)
Example safe_quantity_below_floor :
  _calculate_safe_quantity "BTC/USDT" 3 50000 "spot" = 0.
Proof. reflexivity. Qed.

Example rebalancing_scenario :
  check_rebalancing_needed (init 0)
    (mkPortfolioState (Some 1000) (Some 600) (Some 400) None None) 0 = true.
Proof. reflexivity. Qed.

(** The sorts are stable. *)
Example sort_asc_stable :
  Py.sort_asc snd [ ("a", 3); ("b", 1); ("c", 2); ("d", 1) ]%Z
  = [ ("b", 1); ("d", 1); ("c", 2); ("a", 3) ]%Z.
Proof. reflexivity. Qed.

Example sorted_desc_stable :
  Py.sorted_desc snd [ ("a", 1); ("b", 3); ("c", 2); ("d", 3) ]
  = [ ("b", 3); ("d", 3); ("c", 2); ("a", 1) ].
Proof. reflexivity. Qed.

(** A low-confidence arbitrage opportunity met before any high-confidence
    one reads [spot_quantity] unassigned: the exception empties the
    result. *)
Example low_confidence_arbitrage_first :
  generate_portfolio_signals (init 0)
    (mkOpportunities
       (Some [ Arbitrage.mk "BTC/USDT" (1 # 10000) 100 (10001 # 100)
                 "long_spot_short_futures" (1 # 10000) (2 # 10) ])
       (Some []) (Some []) (Some []))
    (mkPortfolioState None None None (Some 1000) (Some 1000)) None
  = [].
Proof. reflexivity. Qed.

End StrategyFacts.

(* ================================================================== *)
(** * Technical analyser: signals and the noise filter *)
(* ================================================================== *)

Module AnalyzerFacts.
Import TechnicalAnalyzer.

(** ** generate_signals *)

Lemma sign_if (c1 c2 : Py.exn bool) (q : Q) :
  (x <- c1 ;; if x then Py.ret 1
              else y <- c2 ;; if y then Py.ret (- 1) else Py.ret 0) = Some q ->
  q = 1 \/ q = - 1 \/ q = 0.
Proof.
  destruct c1 as [[|]|]; simpl; try discriminate.
  - intro H. inversion H. now left.
  - destruct c2 as [[|]|]; simpl; try discriminate; intro H; inversion H.
    + right. now left.
    + right. now right.
Qed.

Lemma ret_zero_sign (q : Q) : Py.ret 0 = Some q -> q = 1 \/ q = - 1 \/ q = 0.
Proof. intro H. inversion H. right. now right. Qed.

Lemma rsi_block_sign (self : t) (indicators : Indicators) (q : Q) :
  rsi_block self indicators = Some q -> q = 1 \/ q = - 1 \/ q = 0.
Proof.
  unfold rsi_block.
  destruct (rsi indicators) as [series|]; [|apply ret_zero_sign].
  destruct (nonempty series); [|apply ret_zero_sign].
  apply sign_if.
Qed.

Lemma macd_block_sign (indicators : Indicators) (q : Q) :
  macd_block indicators = Some q -> q = 1 \/ q = - 1 \/ q = 0.
Proof.
  unfold macd_block.
  destruct (macd indicators) as [m|]; [|apply ret_zero_sign].
  destruct (histogram m) as [h|]; [|apply ret_zero_sign].
  destruct (2 <=? List.length h)%nat; [|apply ret_zero_sign].
  destruct (isna (last1 h) || isna (last2 h)); [apply ret_zero_sign|].
  apply sign_if.
Qed.

Lemma bb_block_sign (indicators : Indicators) (q : Q) :
  bb_block indicators = Some q -> q = 1 \/ q = - 1 \/ q = 0.
Proof.
  unfold bb_block.
  destruct (bb indicators) as [b|]; [|apply ret_zero_sign].
  destruct (nonempty _ && nonempty _ && nonempty _); [|apply ret_zero_sign].
  destruct (isna _ || isna _ || isna _); [apply ret_zero_sign|].
  apply sign_if.
Qed.

Lemma stoch_block_sign (indicators : Indicators) (q : Q) :
  stoch_block indicators = Some q -> q = 1 \/ q = - 1 \/ q = 0.
Proof.
  unfold stoch_block.
  destruct (stoch indicators) as [s|]; [|apply ret_zero_sign].
  destruct (slowk s) as [series|]; [|apply ret_zero_sign].
  destruct (nonempty series); [|apply ret_zero_sign].
  destruct (isna _ || negb _); [apply ret_zero_sign|].
  apply sign_if.
Qed.

Lemma sign_bounds (q : Q) : q = 1 \/ q = - 1 \/ q = 0 -> - 1 <= q /\ q <= 1.
Proof. intros [-> | [-> | ->]]; split; discriminate. Qed.

(** C10.  For every indicator bundle -- absent keys, empty series, NaN,
    None, numpy integers or non-numeric objects as last values --
    [generate_signals] returns (never raising: a raised exception is caught
    and replaced by the all-zero dict) a dict in which rsi_signal,
    macd_signal, bb_signal and stoch_signal are bound to floats among
    1, -1, 0, and combined_signal is bound to their arithmetic mean, which
    lies in [-1, 1]. *)
Theorem generate_signals_total_and_mean :
  forall (self : t) (indicators : Indicators),
  exists r m b s c : Q,
    Py.get (generate_signals self indicators) "rsi_signal" = Some (VFloat r)
    /\ Py.get (generate_signals self indicators) "macd_signal"
       = Some (VFloat m)
    /\ Py.get (generate_signals self indicators) "bb_signal" = Some (VFloat b)
    /\ Py.get (generate_signals self indicators) "stoch_signal"
       = Some (VFloat s)
    /\ Py.get (generate_signals self indicators) "combined_signal"
       = Some (VFloat c)
    /\ (r = 1 \/ r = - 1 \/ r = 0) /\ (m = 1 \/ m = - 1 \/ m = 0)
    /\ (b = 1 \/ b = - 1 \/ b = 0) /\ (s = 1 \/ s = - 1 \/ s = 0)
    /\ c == (r + m + b + s) / 4
    /\ - 1 <= c /\ c <= 1.
Proof.
  intros self ind.
  assert (Hdefault :
    exists r m b s c : Q,
      Py.get default_signals "rsi_signal" = Some (VFloat r)
      /\ Py.get default_signals "macd_signal" = Some (VFloat m)
      /\ Py.get default_signals "bb_signal" = Some (VFloat b)
      /\ Py.get default_signals "stoch_signal" = Some (VFloat s)
      /\ Py.get default_signals "combined_signal" = Some (VFloat c)
      /\ (r = 1 \/ r = - 1 \/ r = 0) /\ (m = 1 \/ m = - 1 \/ m = 0)
      /\ (b = 1 \/ b = - 1 \/ b = 0) /\ (s = 1 \/ s = - 1 \/ s = 0)
      /\ c == (r + m + b + s) / 4
      /\ - 1 <= c /\ c <= 1).
  { exists 0, 0, 0, 0, 0. repeat split; auto; discriminate. }
  unfold generate_signals.
  destruct (rsi_block self ind) as [r|] eqn:Er; [|exact Hdefault].
  destruct (macd_block ind) as [m|] eqn:Em; [|exact Hdefault].
  destruct (bb_block ind) as [b|] eqn:Eb; [|exact Hdefault].
  destruct (stoch_block ind) as [s|] eqn:Es; [|exact Hdefault].
  clear Hdefault.
  pose proof (rsi_block_sign _ _ _ Er) as Hr.
  pose proof (macd_block_sign _ _ Em) as Hm.
  pose proof (bb_block_sign _ _ Eb) as Hb.
  pose proof (stoch_block_sign _ _ Es) as Hs.
  exists r, m, b, s, ((0 + r + m + b + s) / inject_Z 4).
  split; [reflexivity|]. split; [reflexivity|]. split; [reflexivity|].
  split; [reflexivity|]. split; [reflexivity|].
  split; [exact Hr|]. split; [exact Hm|]. split; [exact Hb|].
  split; [exact Hs|].
  apply sign_bounds in Hr, Hm, Hb, Hs.
  change (inject_Z 4) with 4.
  assert (E : (0 + r + m + b + s) / 4 == (r + m + b + s) / 4) by (field).
  split; [exact E|].
  assert (E' : (0 + r + m + b + s) / 4 == (r + m + b + s) * (1 # 4))
    by (field).
  rewrite E'. split; lra.
Qed.

(** ** The noise filter *)

Lemma last3_length {A} (xs : list A) :
  (3 <= List.length xs)%nat -> List.length (last3 xs) = 3%nat.
Proof.
  intro H. unfold last3. rewrite length_skipn. lia.
Qed.

(** What the filter computes on a strong signal with enough history: 0.9
    only when all three recent signals agree, 0.6 for one or two, 0.3 for
    none (2/3 = 0.666... is below the 0.67 cut-off). *)
Lemma noise_filter_by_agreement (c : Q) (history : list Q) :
  8 # 100 <= Qabs c ->
  (3 <= List.length history)%nat ->
  _apply_noise_filter (mkSignals (Some c)) (mkMarketData (Some history))
  = match List.length
            (filter (consistent (if Py.ltb 0 c then 1%Z else (-1)%Z))
               (last3 history)) with
    | 3%nat => 9 # 10
    | 0%nat => 3 # 10
    | _ => 6 # 10
    end.
Proof.
  intros Hc Hlen. unfold _apply_noise_filter. cbn [combined_signal signal_history].
  apply PyFacts.ltb_ge in Hc. unfold Py.abs. rewrite Hc.
  assert (Hl : (List.length history <? 3)%nat = false)
    by (apply Nat.ltb_ge; exact Hlen).
  rewrite Hl.
  pose proof (filter_length_le
                (consistent (if Py.ltb 0 c then 1%Z else (-1)%Z))
                (last3 history)) as Hle.
  rewrite (last3_length history Hlen) in *.
  destruct (List.length (filter _ (last3 history))) as [|[|[|[|n]]]];
    try reflexivity.
  lia.
Qed.

(** C4 at the input where the code departs from it.  The combined signal
    0.5 is not noise (|0.5| >= 0.08), the history has three entries and two
    of them agree in sign with it, yet the score is 0.6, not 0.9: the
    agreement ratio 2/3 is compared with the constant 0.67. *)
Theorem noise_filter_two_of_three_scores_0_6 :
  8 # 100 <= Qabs (1 # 2)
  /\ List.length [ 1 # 2; 1 # 2; - (1 # 2) ] = 3%nat
  /\ List.length (filter (consistent 1) (last3 [ 1 # 2; 1 # 2; - (1 # 2) ]))
     = 2%nat
  /\ _apply_noise_filter Samples.bullish_signal Samples.two_of_three_history
     = 6 # 10
  /\ ~ _apply_noise_filter Samples.bullish_signal Samples.two_of_three_history
       == 9 # 10.
Proof.
  repeat split; try reflexivity; discriminate.
Qed.

Lemma noise_filter_weak_signal (c : Q) (market_data : MarketData) :
  Qabs c < 8 # 100 ->
  _apply_noise_filter (mkSignals (Some c)) market_data = 1 # 10.
Proof.
  intro H. unfold _apply_noise_filter. cbn [combined_signal].
  apply PyFacts.ltb_lt in H. unfold Py.abs. rewrite H. reflexivity.
Qed.

Lemma noise_filter_short_history (c : Q) (history : list Q) :
  8 # 100 <= Qabs c ->
  (List.length history < 3)%nat ->
  _apply_noise_filter (mkSignals (Some c)) (mkMarketData (Some history))
  = 6 # 10.
Proof.
  intros Hc Hlen. unfold _apply_noise_filter.
  cbn [combined_signal signal_history].
  apply PyFacts.ltb_ge in Hc. unfold Py.abs. rewrite Hc.
  apply Nat.ltb_lt in Hlen. rewrite Hlen. reflexivity.
Qed.

(** RSI 25 is oversold (+1), 75 overbought (-1), 50 and the thresholds
    themselves neutral. *)
Example rsi_signal_scenarios :
  Py.get (generate_signals init
            (mkIndicators (Some [ VFloat 25 ]) None None None)) "rsi_signal"
  = Some (VFloat 1)
  /\ Py.get (generate_signals init
               (mkIndicators (Some [ VFloat 75 ]) None None None)) "rsi_signal"
     = Some (VFloat (- 1))
  /\ Py.get (generate_signals init
               (mkIndicators (Some [ VFloat 50 ]) None None None)) "rsi_signal"
     = Some (VFloat 0)
  /\ Py.get (generate_signals init
               (mkIndicators (Some [ VFloat 30 ]) None None None)) "rsi_signal"
     = Some (VFloat 0)
  /\ Py.get (generate_signals init
               (mkIndicators (Some [ VNaN ]) None None None)) "rsi_signal"
     = Some (VFloat 0).
Proof. repeat split. Qed.

End AnalyzerFacts.

(* ================================================================== *)
(** * Risk manager: price levels, drawdown and stop handling *)
(* ================================================================== *)

Module RiskLevelsFacts.
Import RiskManager RiskLevels.

Lemma max_is_Qmax (a b : Q) : Py.max a b == Qmax a b.
Proof.
  unfold Py.max. destruct (Py.ltb a b) eqn:E.
  - apply PyFacts.ltb_lt in E. symmetry. apply Q.max_r. apply Qlt_le_weak. exact E.
  - apply PyFacts.ltb_ge in E. symmetry. apply Q.max_l. exact E.
Qed.

Lemma min_is_Qmin (a b : Q) : Py.min a b == Qmin a b.
Proof.
  unfold Py.min. destruct (Py.ltb b a) eqn:E.
  - apply PyFacts.ltb_lt in E. symmetry. apply Q.min_r. apply Qlt_le_weak. exact E.
  - apply PyFacts.ltb_ge in E. symmetry. apply Q.min_l. exact E.
Qed.

(** The three-step distance of [calculate_stop_loss] collapses to the
    larger of the basic stop and twice the volatility. *)
Lemma stop_loss_distance (basic v : Q) :
  Py.max basic (Py.min (Py.max (v * 2) basic) (v * 2)) == Qmax basic (v * 2).
Proof.
  rewrite max_is_Qmax, min_is_Qmin, max_is_Qmax.
  destruct (Qlt_le_dec basic (v * 2)) as [H|H].
  - rewrite (Q.max_l (v * 2) basic) by (apply Qlt_le_weak; exact H).
    rewrite Q.min_id. reflexivity.
  - rewrite (Q.max_r (v * 2) basic) by exact H.
    rewrite (Q.min_r basic (v * 2)) by exact H.
    reflexivity.
Qed.

(** X1.  The stop-loss distance is max(stop_loss_pct, 2 x volatility); for
    a non-negative entry price a long's stop is therefore at or below
    entry x (1 - stop_loss_pct) and a short's at or above
    entry x (1 + stop_loss_pct): volatility only widens the stop. *)
Theorem stop_loss_never_tighter_than_basic :
  forall (rm : t) (symbol : string) (entry_price volatility : Q),
    0 <= entry_price ->
    calculate_stop_loss rm symbol "buy" entry_price volatility
    == entry_price * (1 - Qmax (stop_loss_pct rm) (volatility * 2))
    /\ calculate_stop_loss rm symbol "sell" entry_price volatility
       == entry_price * (1 + Qmax (stop_loss_pct rm) (volatility * 2))
    /\ calculate_stop_loss rm symbol "buy" entry_price volatility
       <= entry_price * (1 - stop_loss_pct rm)
    /\ entry_price * (1 + stop_loss_pct rm)
       <= calculate_stop_loss rm symbol "sell" entry_price volatility.
Proof.
  intros rm symbol entry v Hentry.
  unfold calculate_stop_loss. cbn [String.eqb Ascii.eqb Bool.eqb].
  cbv zeta.
  pose proof (stop_loss_distance (stop_loss_pct rm) v) as E.
  pose proof (Q.le_max_l (stop_loss_pct rm) (v * 2)) as Hmax.
  set (d := Py.max (stop_loss_pct rm)
              (Py.min (Py.max (v * 2) (stop_loss_pct rm)) (v * 2))) in *.
  rewrite <- E in Hmax. rewrite <- E.
  split; [reflexivity|]. split; [reflexivity|].
  split; nra.
Qed.

Lemma stop_loss_never_tighter_than_basic_witness :
  0 <= 100
  /\ calculate_stop_loss init "BTC/USDT" "buy" 100 (4 # 100)
     <= 100 * (1 - stop_loss_pct init).
Proof.
  split; [discriminate|].
  apply (stop_loss_never_tighter_than_basic init "BTC/USDT" 100 (4 # 100)).
  discriminate.
Defined.

(** X2.  The take-profit distance is capped at twice [stop_loss_pct]
    whatever the signal strength: for a non-negative entry price a long's
    target is at most entry x (1 + 2 x stop_loss_pct) and a short's at
    least entry x (1 - 2 x stop_loss_pct). *)
Theorem take_profit_capped_by_risk_reward :
  forall (rm : t) (symbol : string) (entry_price signal_strength : Q),
    0 <= entry_price ->
    calculate_take_profit rm symbol "buy" entry_price signal_strength
    <= entry_price * (1 + stop_loss_pct rm * 2)
    /\ entry_price * (1 - stop_loss_pct rm * 2)
       <= calculate_take_profit rm symbol "sell" entry_price signal_strength.
Proof.
  intros rm symbol entry s Hentry.
  unfold calculate_take_profit. cbn [String.eqb Ascii.eqb Bool.eqb].
  cbv zeta.
  pose proof (PyFacts.min_le_r (take_profit_pct rm * (1 + s))
                (stop_loss_pct rm * 2)) as Hmin.
  set (d := Py.min (take_profit_pct rm * (1 + s)) (stop_loss_pct rm * 2)) in *.
  split; nra.
Qed.

Lemma take_profit_capped_by_risk_reward_witness :
  0 <= 100
  /\ calculate_take_profit init "BTC/USDT" "buy" 100 5
     <= 100 * (1 + stop_loss_pct init * 2).
Proof.
  split; [discriminate|].
  apply (take_profit_capped_by_risk_reward init "BTC/USDT" 100 5).
  discriminate.
Defined.

(** X3.  [update_drawdown] keeps the risk state sane: for a non-negative
    balance and a drawdown already in [0, 1], the peak never decreases, is
    at least the reported balance afterwards, the drawdown stays in [0, 1],
    and the positions and alerts are untouched.  (With a zero peak and a
    zero balance the division raises and the state is left as it was.) *)
Theorem update_drawdown_invariant :
  forall (rm : t) (current_balance : Q),
    0 <= current_balance ->
    0 <= current_drawdown rm -> current_drawdown rm <= 1 ->
    peak_balance rm <= peak_balance (update_drawdown rm current_balance)
    /\ current_balance <= peak_balance (update_drawdown rm current_balance)
    /\ 0 <= current_drawdown (update_drawdown rm current_balance)
    /\ current_drawdown (update_drawdown rm current_balance) <= 1
    /\ positions (update_drawdown rm current_balance) = positions rm
    /\ risk_alerts (update_drawdown rm current_balance) = risk_alerts rm.
Proof.
  intros rm b Hb Hd0 Hd1. unfold update_drawdown.
  destruct (Py.ltb (peak_balance rm) b) eqn:E.
  - apply PyFacts.ltb_lt in E. simpl.
    repeat split; try reflexivity; try discriminate; lra.
  - apply PyFacts.ltb_ge in E. unfold Py.div.
    destruct (Py.eqb (peak_balance rm) 0) eqn:Ez; simpl.
    + repeat split; try assumption; try reflexivity; lra.
    + apply PyFacts.eqb_neq in Ez.
      assert (Hpos : 0 < peak_balance rm).
      { destruct (Qlt_le_dec 0 (peak_balance rm)) as [H|H]; [exact H|].
        exfalso. apply Ez. lra. }
      repeat split; try reflexivity; try lra.
      * apply Qle_shift_div_l; [exact Hpos | lra].
      * apply Qle_shift_div_r; [exact Hpos | lra].
Qed.

Lemma update_drawdown_invariant_witness :
  0 <= 800 /\ 0 <= current_drawdown (update_drawdown init 1000)
  /\ current_drawdown (update_drawdown (update_drawdown init 1000) 800) <= 1
  /\ current_drawdown (update_drawdown (update_drawdown init 1000) 800)
     == 2 # 10.
Proof.
  split; [discriminate|]. split; [discriminate|].
  split; [|reflexivity].
  apply (update_drawdown_invariant (update_drawdown init 1000) 800);
    discriminate.
Defined.

(** X4.  [_update_trailing_stop] never loosens a stop: a long's stop only
    moves up, a short's only down; when nothing is reported the position is
    unchanged, and the size is never touched. *)
Theorem trailing_stop_never_loosens :
  forall (position : Position) (profit_ratio : Q),
    (if String.eqb (side position) "buy"
     then stop_loss_price position
          <= stop_loss_price (snd (_update_trailing_stop position profit_ratio))
     else stop_loss_price (snd (_update_trailing_stop position profit_ratio))
          <= stop_loss_price position)
    /\ size (snd (_update_trailing_stop position profit_ratio)) = size position
    /\ match fst (_update_trailing_stop position profit_ratio) with
       | Some new_stop_loss =>
           stop_loss_price (snd (_update_trailing_stop position profit_ratio))
           = new_stop_loss
       | None => snd (_update_trailing_stop position profit_ratio) = position
       end.
Proof.
  intros p r. unfold _update_trailing_stop.
  destruct (String.eqb (side p) "buy").
  - destruct (Py.ltb (stop_loss_price p) _) eqn:E; simpl.
    + apply PyFacts.ltb_lt in E. repeat split. apply Qlt_le_weak. exact E.
    + repeat split. apply Qle_refl.
  - destruct (Py.ltb _ (stop_loss_price p)) eqn:E; simpl.
    + apply PyFacts.ltb_lt in E. repeat split. apply Qlt_le_weak. exact E.
    + repeat split. apply Qle_refl.
Qed.

Lemma tighten_position_idempotent (p : Position) :
  tighten_position (tighten_position p) = tighten_position p.
Proof. reflexivity. Qed.

(** X5.  Unlike the critical response, the high-level response is
    idempotent: [_tighten_stop_losses] sets every stop from the current
    price and side only, so a second run in the same state changes nothing;
    it never changes a position's size, entry price or side. *)
Theorem high_response_idempotent :
  forall rm : t,
    _execute_automatic_responses (_execute_automatic_responses rm "high") "high"
    = _execute_automatic_responses rm "high"
    /\ map (fun kv => (fst kv, size (snd kv), price (snd kv), side (snd kv)))
         (positions (_execute_automatic_responses rm "high"))
       = map (fun kv => (fst kv, size (snd kv), price (snd kv), side (snd kv)))
           (positions rm).
Proof.
  intro rm.
  change (_execute_automatic_responses rm "high") with (_tighten_stop_losses rm).
  change (_execute_automatic_responses (_tighten_stop_losses rm) "high")
    with (_tighten_stop_losses (_tighten_stop_losses rm)).
  unfold _tighten_stop_losses. simpl positions. split.
  - unfold set_positions. simpl. f_equal.
    rewrite map_map. apply map_ext. intros [s p]. reflexivity.
  - rewrite map_map. apply map_ext. intros [s p]. reflexivity.
Qed.

End RiskLevelsFacts.

(* ================================================================== *)
(** * Insertion-ordered dicts and the position book *)
(* ================================================================== *)

Module DictFacts.

Section Dict.
Context {A : Type}.
Implicit Types (d : list (string * A)) (k : string) (v : A).

Lemma get_set_same d k v : Py.get (Py.set d k v) k = Some v.
Proof.
  induction d as [|[k0 v0] d IH]; simpl.
  - rewrite String.eqb_refl. reflexivity.
  - destruct (String.eqb k0 k) eqn:E; simpl; rewrite E; [reflexivity | exact IH].
Qed.

Lemma get_set_other d k v k' :
  k' <> k -> Py.get (Py.set d k v) k' = Py.get d k'.
Proof.
  intro Hne. induction d as [|[k0 v0] d IH]; simpl.
  - destruct (String.eqb k k') eqn:E; [|reflexivity].
    apply String.eqb_eq in E. congruence.
  - destruct (String.eqb k0 k) eqn:E; simpl.
    + apply String.eqb_eq in E. subst k0.
      destruct (String.eqb k k') eqn:E'; [|reflexivity].
      apply String.eqb_eq in E'. congruence.
    + rewrite IH. reflexivity.
Qed.

Lemma get_none_not_key d k : Py.get d k = None <-> ~ In k (map fst d).
Proof.
  induction d as [|[k0 v0] d IH]; simpl.
  - tauto.
  - destruct (String.eqb k0 k) eqn:E.
    + apply String.eqb_eq in E. split; [discriminate | intro H; tauto].
    + apply String.eqb_neq in E. rewrite IH. tauto.
Qed.

Lemma keys_set d k v :
  map fst (Py.set d k v)
  = match Py.get d k with
    | Some _ => map fst d
    | None => (map fst d ++ [k])%list
    end.
Proof.
  induction d as [|[k0 v0] d IH]; simpl; [reflexivity|].
  destruct (String.eqb k0 k) eqn:E; simpl; [reflexivity|].
  rewrite IH. destruct (Py.get d k); reflexivity.
Qed.

Lemma set_keeps_keys_unique d k v :
  NoDup (map fst d) -> NoDup (map fst (Py.set d k v)).
Proof.
  intro H. rewrite keys_set. destruct (Py.get d k) eqn:E; [exact H|].
  apply get_none_not_key in E.
  apply NoDup_app; [exact H | repeat constructor; simpl; tauto |].
  intros x Hx [<-|[]]. contradiction.
Qed.

Lemma get_del_same d k :
  Py.get (filter (fun kv => negb (String.eqb (fst kv) k)) d) k = None.
Proof.
  induction d as [|[k0 v0] d IH]; simpl; [reflexivity|].
  destruct (String.eqb k0 k) eqn:E; simpl; [exact IH|].
  rewrite E. exact IH.
Qed.

Lemma get_del_other d k k' :
  k' <> k ->
  Py.get (filter (fun kv => negb (String.eqb (fst kv) k)) d) k' = Py.get d k'.
Proof.
  intro Hne. induction d as [|[k0 v0] d IH]; simpl; [reflexivity|].
  destruct (String.eqb k0 k) eqn:E; simpl.
  - apply String.eqb_eq in E. subst k0.
    destruct (String.eqb k k') eqn:E'; [|exact IH].
    apply String.eqb_eq in E'. congruence.
  - rewrite IH. reflexivity.
Qed.

Lemma del_keeps_keys_unique d k :
  NoDup (map fst d) ->
  NoDup (map fst (filter (fun kv => negb (String.eqb (fst kv) k)) d)).
Proof.
  induction d as [|[k0 v0] d IH]; simpl; intro H; [constructor|].
  inversion H as [|? ? Hnotin Hnd]; subst.
  destruct (negb (String.eqb k0 k)); simpl; [|apply IH; exact Hnd].
  constructor; [|apply IH; exact Hnd].
  intro Hin. apply Hnotin. apply in_map_iff in Hin.
  destruct Hin as [[k1 v1] [Hk Hin]]. apply filter_In in Hin.
  apply in_map_iff. exists (k1, v1). tauto.
Qed.

End Dict.

End DictFacts.

Module PositionBookFacts.
Import RiskManager.

(** X6.  The risk manager's position book holds one position per symbol:
    on a book with unique symbols, [add_position] keeps the symbols unique,
    makes the new position (current price = entry price, no unrealised
    profit) the one found under its symbol, replaces rather than duplicates
    an existing entry, and leaves every other symbol's position alone;
    [remove_position] then deletes exactly that entry. *)
Theorem position_book_one_per_symbol :
  forall (rm : t) (symbol side : string) (size price : Q)
         (exchange_type : string) (stop_loss_price take_profit_price : Q)
         (now : Z),
    NoDup (map fst (positions rm)) ->
    let rm' :=
      add_position rm symbol side size price exchange_type stop_loss_price
        take_profit_price now in
    NoDup (map fst (positions rm'))
    /\ Py.get (positions rm') symbol
       = Some (mkPosition symbol side size price exchange_type stop_loss_price
                 take_profit_price now 0 (Some price))
    /\ List.length (positions rm')
       = match Py.get (positions rm) symbol with
         | Some _ => List.length (positions rm)
         | None => S (List.length (positions rm))
         end
    /\ (forall other, other <> symbol ->
          Py.get (positions rm') other = Py.get (positions rm) other)
    /\ NoDup (map fst (positions (remove_position rm' symbol)))
    /\ Py.get (positions (remove_position rm' symbol)) symbol = None
    /\ (forall other, other <> symbol ->
          Py.get (positions (remove_position rm' symbol)) other
          = Py.get (positions rm) other).
Proof.
  intros rm symbol side size price et sl tp now Hnd rm'.
  unfold rm', add_position, remove_position. simpl positions.
  set (p := mkPosition symbol side size price et sl tp now 0 (Some price)).
  split; [apply DictFacts.set_keeps_keys_unique; exact Hnd|].
  split; [apply DictFacts.get_set_same|].
  split.
  { rewrite <- !(length_map fst), DictFacts.keys_set.
    destruct (Py.get (positions rm) symbol); [reflexivity|].
    rewrite length_app. simpl. lia. }
  split; [intros other Hne; apply DictFacts.get_set_other; exact Hne|].
  split.
  { apply DictFacts.del_keeps_keys_unique.
    apply DictFacts.set_keeps_keys_unique. exact Hnd. }
  split; [apply DictFacts.get_del_same|].
  intros other Hne. rewrite DictFacts.get_del_other by exact Hne.
  apply DictFacts.get_set_other. exact Hne.
Qed.

Lemma sample_book_unique : NoDup (map fst (positions Samples.risk_state)).
Proof.
  repeat constructor; simpl; intuition discriminate.
Defined.

Lemma position_book_one_per_symbol_witness :
  NoDup (map fst (positions Samples.risk_state))
  /\ List.length
       (positions (add_position Samples.risk_state "BTC/USDT" "sell" 3 95
                     "futures" 0 0 7))
     = 2%nat.
Proof.
  split; [exact sample_book_unique|].
  exact (proj1 (proj2 (proj2
    (position_book_one_per_symbol Samples.risk_state "BTC/USDT" "sell" 3 95
       "futures" 0 0 7 sample_book_unique)))).
Defined.

End PositionBookFacts.

Module TradeValidationFacts.
Import RiskManager TradeValidation.




End TradeValidationFacts.

(* ================================================================== *)
(** * Facts about real-time risk monitoring *)
(* ================================================================== *)

Module RiskMonitorFacts.
Import RiskManager RiskMonitor.

Lemma trailing_stop_only_moves_stop (p : Position) (r : Q) :
  set_stop_loss_price (snd (RiskLevels._update_trailing_stop p r)) 0
  = set_stop_loss_price p 0.
Proof.
  unfold RiskLevels._update_trailing_stop.
  destruct (String.eqb (side p) "buy");
    match goal with |- context [Py.ltb ?a ?b] => destruct (Py.ltb a b) end;
    reflexivity.
Qed.

(** The position loop changes nothing but stop-loss prices, also when it
    is left by an exception. *)
Lemma position_risk_loop_only_moves_stops (rm : t) (now : Z)
    (ps : list (string * Position)) :
  forall (al : list MonitorAlert) (ac : list Action),
    map (fun kv => (fst kv, set_stop_loss_price (snd kv) 0))
      (snd (position_risk_loop rm now ps al ac))
    = map (fun kv => (fst kv, set_stop_loss_price (snd kv) 0)) ps.
Proof.
  induction ps as [|[s p] ps IH]; intros al ac; simpl; [reflexivity|].
  destruct (pnl_pct p) as [pnl|]; [|reflexivity].
  destruct (Py.ltb (5 # 100) pnl).
  - pose proof (trailing_stop_only_moves_stop p (2 # 100)) as Hp.
    destruct (RiskLevels._update_trailing_stop p (2 # 100)) as [[n|] p'];
      simpl in Hp.
    + match goal with
      | |- context [position_risk_loop rm now ps ?a ?b] =>
          specialize (IH a b); destruct (position_risk_loop rm now ps a b)
      end.
      simpl in *. rewrite IH, Hp. reflexivity.
    + match goal with
      | |- context [position_risk_loop rm now ps ?a ?b] =>
          specialize (IH a b); destruct (position_risk_loop rm now ps a b)
      end.
      simpl in *. rewrite IH, Hp. reflexivity.
  - match goal with
    | |- context [position_risk_loop rm now ps ?a ?b] =>
        specialize (IH a b); destruct (position_risk_loop rm now ps a b)
    end.
    simpl in *. rewrite IH. reflexivity.
Qed.

Lemma position_component_level (rm : t) (now : Z) :
  exists l, risk_level (fst (_monitor_position_risks rm now)) = Some l
            /\ (1 <= score_of l <= 3)%Z.
Proof.
  unfold _monitor_position_risks.
  destruct (position_risk_loop rm now (positions rm) [] []) as [[[al ac]|] ps];
    simpl.
  - destruct (2 <? List.length al)%nat; [|destruct (0 <? List.length al)%nat];
      eexists; (split; [reflexivity|]); vm_compute; split; discriminate.
  - eexists; (split; [reflexivity|]); vm_compute; split; discriminate.
Qed.

Lemma correlation_component_level (rm : t) :
  exists l, risk_level (_monitor_correlation_risks rm) = Some l
            /\ (1 <= score_of l <= 3)%Z.
Proof.
  unfold _monitor_correlation_risks.
  destruct (List.length (positions rm) <? 2)%nat.
  - eexists; (split; [reflexivity|]); vm_compute; split; discriminate.
  - destruct (correlation_outer (positions rm) (0, 0%Z)) as [[tot cnt]|];
      simpl.
    + destruct (0 <? cnt)%Z; [unfold Py.div;
                              destruct (Py.eqb (inject_Z cnt) 0)|]; simpl;
        repeat match goal with
               | |- context [Py.ltb ?a ?b] => destruct (Py.ltb a b)
               end;
        eexists; (split; [reflexivity|]); vm_compute; split; discriminate.
    + eexists; (split; [reflexivity|]); vm_compute; split; discriminate.
Qed.

Lemma regime_component_level (previous : option string) (draw : string) :
  exists l, risk_level (fst (_detect_regime_changes previous draw)) = Some l
            /\ (1 <= score_of l <= 3)%Z.
Proof.
  unfold _detect_regime_changes.
  destruct (negb _); [destruct (String.eqb draw "volatile");
                      [|destruct (String.eqb draw "ranging")]|];
    eexists; (split; [reflexivity|]); vm_compute; split; discriminate.
Qed.

Lemma liquidity_component_level (rm : t) :
  exists l, risk_level (_monitor_liquidity_risks rm) = Some l
            /\ (1 <= score_of l <= 3)%Z.
Proof.
  unfold _monitor_liquidity_risks.
  destruct (liquidity_loop (positions rm) []) as [al|]; simpl.
  - destruct (0 <? List.length al)%nat; [destruct (existsb is_high_impact al)|];
      eexists; (split; [reflexivity|]); vm_compute; split; discriminate.
  - eexists; (split; [reflexivity|]); vm_compute; split; discriminate.
Qed.

Lemma leverage_component_level (rm : t) :
  exists l, risk_level (_monitor_leverage_risks rm) = Some l
            /\ (1 <= score_of l <= 4)%Z.
Proof.
  unfold _monitor_leverage_risks.
  destruct (total_position_value (positions rm) 0) as [tot|]; simpl.
  - repeat match goal with
           | |- context [Py.ltb ?a ?b] => destruct (Py.ltb a b)
           end;
      eexists; (split; [reflexivity|]); vm_compute; split; discriminate.
  - eexists; (split; [reflexivity|]); vm_compute; split; discriminate.
Qed.

(** The overall level of five components that all carry a level is the
    label of the mean of their scores. *)
Lemma overall_level_of_five (c1 c2 c3 c4 c5 : Component)
    (l1 l2 l3 l4 l5 : string) :
  risk_level c1 = Some l1 -> risk_level c2 = Some l2 ->
  risk_level c3 = Some l3 -> risk_level c4 = Some l4 ->
  risk_level c5 = Some l5 ->
  level (_calculate_overall_risk_level [c1; c2; c3; c4; c5])
  = level_of_score
      (inject_Z (0 + score_of l1 + score_of l2 + score_of l3 + score_of l4
                 + score_of l5)
       / inject_Z (0 + 1 + 1 + 1 + 1 + 1)).
Proof.
  intros H1 H2 H3 H4 H5.
  unfold _calculate_overall_risk_level, accumulate.
  rewrite H1, H2, H3, H4, H5. reflexivity.
Qed.

Lemma level_of_score_below_critical (total : Z) :
  (total <= 16)%Z ->
  In (level_of_score (inject_Z total / inject_Z 5)) ["low"; "medium"; "high"].
Proof.
  intro H. unfold level_of_score.
  assert (E : Py.leb (35 # 10) (inject_Z total / inject_Z 5) = false).
  { apply PyFacts.leb_gt.
    apply Qlt_shift_div_r; [reflexivity|].
    apply Qle_lt_trans with (inject_Z 16).
    - rewrite <- Zle_Qle. exact H.
    - reflexivity. }
  rewrite E.
  destruct (Py.leb (25 # 10) _); [simpl; tauto|].
  destruct (Py.leb (15 # 10) _); simpl; tauto.
Qed.

(** X8.  [real_time_risk_monitoring] never reports the critical level: four
    of its five monitors reach at most 'high' (score 3) and only the
    leverage monitor can say 'critical' (4), so the mean score is at most
    16/5 = 3.2 < 3.5.  Hence the 50% position reduction is never triggered
    from here: whatever the state, the time and the regime drawn, a
    monitoring pass changes nothing but stop-loss prices -- every position
    keeps its symbol, side, size, entry and current price, and the rest of
    the risk state is untouched. *)
Theorem monitoring_never_critical :
  forall (m : Monitor) (now : Z) (regime_draw : string),
    In (result_risk_level (fst (real_time_risk_monitoring m now regime_draw)))
       ["low"; "medium"; "high"]
    /\ map (fun kv => (fst kv, set_stop_loss_price (snd kv) 0))
         (positions
            (manager (snd (real_time_risk_monitoring m now regime_draw))))
       = map (fun kv => (fst kv, set_stop_loss_price (snd kv) 0))
           (positions (manager m))
    /\ set_positions
         (manager (snd (real_time_risk_monitoring m now regime_draw))) []
       = set_positions (manager m) [].
Proof.
  intros m now draw. unfold real_time_risk_monitoring.
  destruct (position_component_level (manager m) now) as [l1 [H1 B1]].
  pose proof (position_risk_loop_only_moves_stops (manager m) now
                (positions (manager m)) [] []) as Hps.
  unfold _monitor_position_risks in *.
  destruct (position_risk_loop (manager m) now (positions (manager m)) [] [])
    as [r ps].
  simpl in Hps.
  set (c1 := match r with
             | Some (al, ac) => _
             | None => _
             end) in *.
  simpl in H1.
  set (rm1 := set_positions (manager m) ps).
  destruct (correlation_component_level rm1) as [l2 [H2 B2]].
  destruct (regime_component_level (_previous_regime m) draw) as [l3 [H3 B3]].
  destruct (_detect_regime_changes (_previous_regime m) draw) as [c3 prev'].
  simpl in H3.
  destruct (liquidity_component_level rm1) as [l4 [H4 B4]].
  destruct (leverage_component_level rm1) as [l5 [H5 B5]].
  pose proof (overall_level_of_five _ _ _ _ _ _ _ _ _ _ H1 H2 H3 H4 H5) as E.
  assert (Hin : In (level (_calculate_overall_risk_level
                             [c1; _monitor_correlation_risks rm1; c3;
                              _monitor_liquidity_risks rm1;
                              _monitor_leverage_risks rm1]))
                  ["low"; "medium"; "high"]).
  { rewrite E. apply level_of_score_below_critical. lia. }
  clear E.
  set (o := _calculate_overall_risk_level _) in *.
  simpl fst. simpl snd. simpl result_risk_level. simpl manager.
  split; [exact Hin|].
  destruct Hin as [<- | [<- | [<- | []]]].
  - simpl. split; [exact Hps | reflexivity].
  - simpl. split; [exact Hps | reflexivity].
  - change (if Py.mem "high" ["high"; "critical"]
            then _execute_automatic_responses rm1 "high" else rm1)
      with (_tighten_stop_losses rm1).
    unfold _tighten_stop_losses. simpl. split; [|reflexivity].
    rewrite map_map. simpl. exact Hps.
Qed.

End RiskMonitorFacts.

(* ================================================================== *)
(** * Facts about rebalancing orders *)
(* ================================================================== *)

Module RebalancerFacts.
Import HybridPortfolioStrategy Rebalancer.

(** What every order built by [_generate_initial_purchase_orders] looks
    like. *)
Local Notation "'initial_buy'" :=
  (fun o : Signal =>
     strategy o = "initial_investment" /\ action o = "buy"
     /\ 0 < size o /\ expected_return o = None
     /\ ((exchange_type o = "spot" /\ In (symbol o) primary_symbols
          /\ priority o = 1%Z)
         \/ (exchange_type o = "futures" /\ symbol o = "BTC/USDT"
             /\ priority o = 2%Z))).

Lemma initial_spot_orders_shape (cp : list (string * Q)) (amount : Q)
    (syms : list string) :
  forall orders : list Signal,
    (forall s, In s syms -> In s primary_symbols) ->
    Forall initial_buy orders ->
    Forall initial_buy (initial_spot_orders syms cp amount orders)
    /\ (List.length (initial_spot_orders syms cp amount orders)
        <= List.length orders + List.length syms)%nat.
Proof.
  induction syms as [|s syms IH]; intros orders Hs Ho; simpl.
  - split; [exact Ho | lia].
  - assert (Hs' : forall x, In x syms -> In x primary_symbols)
      by (intros x Hx; apply Hs; right; exact Hx).
    destruct (Py.leb (Py.get_or cp s 0) 0).
    { destruct (IH orders Hs' Ho) as [F L]. split; [exact F | lia]. }
    destruct (Py.ltb amount 10).
    { destruct (IH orders Hs' Ho) as [F L]. split; [exact F | lia]. }
    destruct (Py.ltb 0 (_calculate_safe_quantity s amount (Py.get_or cp s 0)
                          "spot")) eqn:E.
    + apply PyFacts.ltb_lt in E.
      match goal with
      | |- context [initial_spot_orders syms cp amount ?ords] =>
          destruct (IH ords Hs') as [F L]
      end.
      * apply Forall_app. split; [exact Ho|].
        constructor; [|constructor].
        simpl. repeat split; try exact E.
        left. repeat split. apply Hs. left. reflexivity.
      * split; [exact F|]. rewrite length_app in L. simpl in L. lia.
    + destruct (IH orders Hs' Ho) as [F L]. split; [exact F | lia].
Qed.

Lemma initial_purchase_orders_shape (self : t) (ps : PortfolioState)
    (cp : option (list (string * Q))) :
  Forall initial_buy (_generate_initial_purchase_orders self ps cp)
  /\ (List.length (_generate_initial_purchase_orders self ps cp) <= 3)%nat.
Proof.
  unfold _generate_initial_purchase_orders. cbv zeta.
  match goal with
  | |- context [initial_spot_orders primary_symbols ?c ?a []] =>
      destruct (initial_spot_orders_shape c a primary_symbols []
                  (fun s H => H) (Forall_nil _)) as [F L];
      set (orders := initial_spot_orders primary_symbols c a []) in *
  end.
  simpl in L.
  destruct (Py.leb 50 _); [|split; [exact F | lia]].
  destruct (Py.ltb 0 (Py.get_or _ "BTC/USDT" 0)); [|split; [exact F | lia]].
  match goal with
  | |- context [Py.ltb 0 ?q] => destruct (Py.ltb 0 q) eqn:E
  end; [|split; [exact F | lia]].
  apply PyFacts.ltb_lt in E. split.
  - apply Forall_app. split; [exact F|]. constructor; [|constructor].
    simpl. repeat split; try exact E. right. repeat split.
  - rewrite length_app. simpl. lia.
Qed.

(** X9.  [generate_rebalancing_orders] only ever asks to buy: at most
    three orders, each an 'initial_investment' buy of positive size, on the
    spot market for BTC/USDT or ETH/USDT (priority 1) or on futures for
    BTC/USDT (priority 2).  With a total balance under 100 there are no
    orders.  The strategy is changed only in its [last_rebalance] stamp,
    which is set to the current time exactly when orders are returned. *)
Theorem rebalancing_orders_are_initial_buys :
  forall (self : t) (portfolio_state : PortfolioState)
         (current_prices : option (list (string * Q))) (now : Q),
    let orders :=
      fst (generate_rebalancing_orders self portfolio_state current_prices
             now) in
    let self' :=
      snd (generate_rebalancing_orders self portfolio_state current_prices
             now) in
    (List.length orders <= 3)%nat
    /\ Forall (fun o : Signal =>
                 strategy o = "initial_investment" /\ action o = "buy"
                 /\ 0 < size o /\ expected_return o = None
                 /\ ((exchange_type o = "spot"
                      /\ In (symbol o) [ "BTC/USDT"; "ETH/USDT" ]
                      /\ priority o = 1%Z)
                     \/ (exchange_type o = "futures"
                         /\ symbol o = "BTC/USDT" /\ priority o = 2%Z)))
         orders
    /\ (if Py.ltb (or_default (total_balance portfolio_state) 0) 100
        then orders = [] else True)
    /\ match orders with
       | [] => self' = self
       | _ :: _ => self' = set_last_rebalance self now
       end.
Proof.
  intros self ps cp now. cbv zeta.
  unfold generate_rebalancing_orders. cbv zeta.
  destruct (Py.ltb (or_default (total_balance ps) 0) 100).
  { simpl. repeat split; [lia | constructor]. }
  destruct (initial_purchase_orders_shape self ps cp) as [F L].
  match goal with
  | |- context [match ?ords with [] => ([], self) | _ => _ end] =>
      assert (H : Forall initial_buy ords /\ (List.length ords <= 3)%nat);
      [|destruct H as [F' L']; destruct ords as [|o1 os] eqn:Eo]
  end.
  - destruct (_ || _); [|split; [constructor | simpl; lia]].
    destruct (_ || _); [|split; [constructor | simpl; lia]].
    split; [exact F | exact L].
  - simpl. repeat split; [lia | constructor].
  - simpl fst. simpl snd. repeat split; [exact L' | exact F'].
Qed.

End RebalancerFacts.

(* ================================================================== *)
(** * Facts about the signal validator *)
(* ================================================================== *)

Module SignalValidatorFacts.
Import SignalValidator.

Lemma check_key_counts (direction : Z) (value : option Q) (acc : Z * Z) :
  (0 <= fst acc <= snd acc)%Z ->
  (0 <= fst (check_key direction value acc)
   <= snd (check_key direction value acc))%Z.
Proof.
  intro H. unfold check_key.
  destruct value as [v|]; [|exact H].
  destruct (Py.ltb (1 # 10) (Py.abs v)); [|exact H].
  destruct (_ || _); simpl; lia.
Qed.

Lemma timeframe_consistency_range (signals : SignalDict) :
  0 <= _check_timeframe_consistency signals
  /\ _check_timeframe_consistency signals <= 1.
Proof.
  unfold _check_timeframe_consistency. cbv zeta.
  destruct (Py.ltb _ (1 # 10)); [split; discriminate|].
  match goal with
  | |- context [check_key ?d (stoch_signal signals) ?a] =>
      assert (H : (0 <= fst (check_key d (stoch_signal signals) a)
                   <= snd (check_key d (stoch_signal signals) a))%Z)
        by (repeat apply check_key_counts; simpl; lia);
      destruct (check_key d (stoch_signal signals) a) as [c n]
  end.
  simpl in H.
  destruct (n =? 0)%Z eqn:E; [split; discriminate|].
  apply Z.eqb_neq in E.
  assert (Hn : 0 < inject_Z n) by (rewrite <- (Zlt_Qlt 0); lia).
  split.
  - apply Qle_shift_div_l; [exact Hn|].
    rewrite Qmult_0_l. rewrite <- (Zle_Qle 0). lia.
  - apply Qle_shift_div_r; [exact Hn|].
    rewrite Qmult_1_l. rewrite <- Zle_Qle. lia.
Qed.

Lemma volume_support_range (market_data : ValidationData) :
  2 # 10 <= _check_volume_support market_data
  /\ _check_volume_support market_data <= 9 # 10.
Proof.
  unfold _check_volume_support.
  destruct (volume market_data) as [v|]; [|split; discriminate].
  cbv zeta. destruct (Py.leb _ 0); [split; discriminate|].
  repeat match goal with
         | |- context [Py.ltb ?a ?b] => destruct (Py.ltb a b)
         end; split; discriminate.
Qed.

Lemma market_regime_range (pct_change_std : list Q -> stat)
    (market_data : ValidationData) :
  3 # 10 <= _identify_market_regime pct_change_std market_data
  /\ _identify_market_regime pct_change_std market_data <= 9 # 10.
Proof.
  unfold _identify_market_regime.
  destruct (price_data market_data) as [p|]; [|split; discriminate].
  destruct (_ <? 20)%nat; [split; discriminate|].
  cbv zeta. unfold regime_score.
  repeat match goal with
         | |- context [if ?b then _ else _] => destruct b
         end; split; discriminate.
Qed.

Lemma noise_filter_range (signals : TechnicalAnalyzer.Signals)
    (market_data : TechnicalAnalyzer.MarketData) :
  1 # 10 <= TechnicalAnalyzer._apply_noise_filter signals market_data
  /\ TechnicalAnalyzer._apply_noise_filter signals market_data <= 9 # 10.
Proof.
  unfold TechnicalAnalyzer._apply_noise_filter. cbv zeta.
  destruct (Py.ltb _ (8 # 100)); [split; discriminate|].
  destruct (_ <? 3)%nat; [split; discriminate|].
  unfold Py.div. destruct (Py.eqb _ 0); [split; discriminate|].
  simpl.
  repeat match goal with
         | |- context [Py.leb ?a ?b] => destruct (Py.leb a b)
         end; split; discriminate.
Qed.

(** X10.  Whatever the signals, the market data and the volatility
    statistic, the confidence reported by [validate_signal_strength] lies
    between 0.145 and 0.925, its four component scores stay in their
    ranges, and [is_valid] is exactly the test confidence > 0.25. *)
Theorem validation_confidence_range :
  forall (pct_change_std : list Q -> stat) (signals : SignalDict)
         (market_data : ValidationData),
    let r := validate_signal_strength pct_change_std signals market_data in
    145 # 1000 <= confidence r /\ confidence r <= 925 # 1000
    /\ final_strength r = confidence r
    /\ is_valid r = Py.ltb (25 # 100) (confidence r)
    /\ 0 <= consistency_score r /\ consistency_score r <= 1
    /\ 2 # 10 <= volume_confirmation r /\ volume_confirmation r <= 9 # 10
    /\ 3 # 10 <= market_regime_score r /\ market_regime_score r <= 9 # 10.
Proof.
  intros std signals md. cbv zeta. unfold validate_signal_strength.
  cbv zeta. simpl.
  destruct (timeframe_consistency_range signals) as [C0 C1].
  destruct (volume_support_range md) as [V0 V1].
  destruct (market_regime_range std md) as [R0 R1].
  destruct (noise_filter_range
              (TechnicalAnalyzer.mkSignals (combined_signal signals))
              (TechnicalAnalyzer.mkMarketData (signal_history md)))
    as [N0 N1].
  repeat split; try assumption; lra.
Qed.

(** X11.  Market data that carries neither a 'volume' nor a 'price_data'
    key makes every signal valid: the two neutral scores of 0.5 and the
    noise filter's floor of 0.1 already give a confidence of at least
    0.275 > 0.25, whatever the signals are -- also when they are all zero
    or absent. *)
Theorem validation_passes_without_market_data :
  forall (pct_change_std : list Q -> stat) (signals : SignalDict)
         (market_data : ValidationData),
    volume market_data = None ->
    price_data market_data = None ->
    is_valid (validate_signal_strength pct_change_std signals market_data)
    = true
    /\ 275 # 1000
       <= confidence
            (validate_signal_strength pct_change_std signals market_data).
Proof.
  intros std signals md Hv Hp. unfold validate_signal_strength.
  cbv zeta. simpl.
  unfold _check_volume_support, _identify_market_regime. rewrite Hv, Hp.
  destruct (timeframe_consistency_range signals) as [C0 C1].
  destruct (noise_filter_range
              (TechnicalAnalyzer.mkSignals (combined_signal signals))
              (TechnicalAnalyzer.mkMarketData (signal_history md)))
    as [N0 N1].
  split; [apply PyFacts.ltb_lt|]; lra.
Qed.

Lemma validation_passes_without_market_data_witness :
  is_valid
    (validate_signal_strength (fun _ => NaN)
       (mkSignalDict (Some 0) (Some 0) (Some 0) (Some 0) (Some 0))
       (mkValidationData None None None None))
  = true.
Proof.
  exact (proj1 (validation_passes_without_market_data (fun _ => NaN)
                  (mkSignalDict (Some 0) (Some 0) (Some 0) (Some 0) (Some 0))
                  (mkValidationData None None None None)
                  eq_refl eq_refl)).
Defined.

End SignalValidatorFacts.
